(** * The universal AI client of [examples/python-async-client.py]

    A shallow embedding of [UniversalAIClient] and of the part of the Python
    runtime it relies on (exceptions, subscripting of decoded JSON values,
    the environment and the HTTP transport), followed by the properties of
    the client that are checked against it. *)

From Stdlib Require Import ZArith Floats.
From stdpp Require Import gmap strings list pretty.

Set Warnings "-register-all,-inexact-float".
#[local] Open Scope Z_scope.

(** ** Python runtime *)

(** Exception classes that can reach a caller of the client: the built-in
    ones the client raises itself or gets from subscripting, the usual ones
    of the transport ([asyncio], [aiohttp], [json]), and any other class,
    given by its name and by whether it derives from [ValueError], from
    [RuntimeError] and from [Exception] (a class such as
    [asyncio.CancelledError] or [KeyboardInterrupt] derives from
    [BaseException] only). *)
Inductive ExcClass : Type :=
  | ValueError
  | RuntimeError
  | KeyError
  | IndexError
  | TypeError
  | TimeoutError
  | ClientConnectionError
  | ContentTypeError
  | JSONDecodeError
  | OtherClass (name : string) (value_error runtime_error exception : bool).

#[global] Instance ExcClass_eq_dec : EqDecision ExcClass.
Proof. solve_decision. Defined.

(** An exception object: its class and [str(e)]. *)
Record Exc : Type := mkExc { exc_class : ExcClass; exc_str : string }.

#[global] Instance Exc_eq_dec : EqDecision Exc.
Proof. solve_decision. Defined.

(** The outcome of evaluating a Python expression or block. *)
Inductive Result (A : Type) : Type :=
  | Ok (a : A)
  | Raise (e : Exc).
Arguments Ok {A} a.
Arguments Raise {A} e.

Definition rbind {A B} (r : Result A) (f : A -> Result B) : Result B :=
  match r with
  | Ok a => f a
  | Raise e => Raise e
  end.

(** Values produced by [json.loads] (and accepted by [json.dumps]):
    [None], [bool], [int], [float], [str], [list] and [dict] with string
    keys. *)
Inductive pyval : Type :=
  | PNone
  | PBool (b : bool)
  | PInt (z : Z)
  | PFloat (f : float)
  | PStr (s : string)
  | PList (l : list pyval)
  | PDict (d : gmap string pyval).

(** A dict display [{k1: v1, ...}] with pairwise different keys. *)
Definition py_dict (items : list (string * pyval)) : pyval :=
  PDict (list_to_map items).

(** [type(v).__name__] *)
Definition type_name (v : pyval) : string :=
  match v with
  | PNone => "NoneType"
  | PBool _ => "bool"
  | PInt _ => "int"
  | PFloat _ => "float"
  | PStr _ => "str"
  | PList _ => "list"
  | PDict _ => "dict"
  end.

(** [repr(k)] of a string without quotes, backslashes or non-printable
    characters (every key the client subscripts with is such a string). *)
Definition py_repr (k : string) : string := "'" +:+ k +:+ "'".

(** The position Python reads for index [i] of a sequence of length [n]:
    negative indices count from the end. *)
Definition seq_index (n : nat) (i : Z) : option nat :=
  let j := if decide (i < 0) then i + Z.of_nat n else i in
  if decide (0 <= j < Z.of_nat n) then Some (Z.to_nat j) else None.

Definition string_nth (s : string) (n : nat) : option string :=
  match String.get n s with
  | Some c => Some (String c EmptyString)
  | None => None
  end.

(** The subscripts the client uses: a string key or an integer index. *)
Inductive Subscript : Type :=
  | SStr (k : string)
  | SInt (i : Z).

(** [v[k]]: a [dict] looks the key up ([KeyError] with the key as
    argument when it is absent; a decoded JSON object has string keys only,
    so an integer key is always absent), a [list] or [str] takes integer
    indices ([IndexError] out of range, [TypeError] for a string
    subscript), and nothing else is subscriptable ([TypeError]). *)
Definition getitem (v : pyval) (k : Subscript) : Result pyval :=
  match v, k with
  | PDict d, SStr k =>
      match d !! k with
      | Some x => Ok x
      | None => Raise (mkExc KeyError (py_repr k))
      end
  | PDict d, SInt i => Raise (mkExc KeyError (pretty i))
  | PList l, SInt i =>
      match seq_index (length l) i ≫= (l !!.) with
      | Some x => Ok x
      | None => Raise (mkExc IndexError "list index out of range")
      end
  | PList l, SStr _ =>
      Raise (mkExc TypeError "list indices must be integers or slices, not str")
  | PStr s, SInt i =>
      match seq_index (String.length s) i ≫= string_nth s with
      | Some c => Ok (PStr c)
      | None => Raise (mkExc IndexError "string index out of range")
      end
  | PStr s, SStr _ =>
      Raise (mkExc TypeError "string indices must be integers, not 'str'")
  | _, _ =>
      Raise (mkExc TypeError ("'" +:+ type_name v +:+ "' object is not subscriptable"))
  end.

(** [x or y] for an [Optional[str]] x: [x] when it is truthy (neither
    [None] nor the empty string), otherwise [y]. *)
Definition py_or (x : option string) (y : string) : string :=
  match x with
  | Some s => if decide (s = "") then y else s
  | None => y
  end.

(** A [dict] whose iteration order matters: the items in insertion order,
    with pairwise different keys. *)
Fixpoint dict_get {V} (d : list (string * V)) (k : string) : option V :=
  match d with
  | [] => None
  | (k', v) :: rest => if decide (k = k') then Some v else dict_get rest k
  end.

(** ** Effects: the environment and the network *)

Record Request : Type := mkRequest {
  req_url : string;
  req_headers : gmap string (option string);
  req_json : pyval;
  req_timeout : Z
}.

(** What the client reads of a response: [resp.status], and the outcomes
    of [await resp.text()] and [await resp.json()]. *)
Record Response : Type := mkResponse {
  resp_status : Z;
  resp_text : Result string;
  resp_json : Result pyval
}.

(** The remote side: [session.post] either raises (timeout, connection
    failure) or yields a response. *)
Definition Transport : Type := Request -> Result Response.

Inductive Event : Type :=
  | GetEnv (name : string)
  | SessionOpen
  | Post (req : Request)
  | SessionClose.

(** A computation with observable events: the events in order and the
    outcome. An exception ends the computation. *)
Definition IO (A : Type) : Type := list Event * Result A.

Definition ret {A} (a : A) : IO A := ([], Ok a).
Definition raise {A} (e : Exc) : IO A := ([], Raise e).
Definition lift {A} (r : Result A) : IO A := ([], r).

Definition bind {A B} (m : IO A) (f : A -> IO B) : IO B :=
  match m with
  | (t, Ok a) => let '(t', r) := f a in (t ++ t', r)
  | (t, Raise e) => (t, Raise e)
  end.

Declare Scope io_scope.
Delimit Scope io_scope with io.
Notation "x <- m ;; k" := (bind m (fun x => k))
  (at level 100, m at next level, right associativity) : io_scope.
Declare Scope result_scope.
Delimit Scope result_scope with result.
Notation "x <- m ;; k" := (rbind m (fun x => k))
  (at level 100, m at next level, right associativity) : result_scope.

(** [os.getenv(name, fallback)] *)
Definition os_getenv (env : gmap string string) (name fallback : string) : IO string :=
  ([GetEnv name], Ok (default fallback (env !! name))).

(** [async with aiohttp.ClientSession() as session: body]: the session is
    closed however the body ends. *)
Definition with_session {A} (body : IO A) : IO A :=
  let '(t, r) := body in (SessionOpen :: t ++ [SessionClose], r).

(** [session.post(url, headers=..., json=..., timeout=...)] *)
Definition post (net : Transport) (req : Request) : IO Response :=
  ([Post req], net req).

(** ** The client *)

(** [@dataclass class ProviderConfig] *)
Module ProviderConfig.
Record t : Type := make {
  url : string;
  key : string;
  header : string;
  prefix : string;
  version_header : option string
}.
End ProviderConfig.
Abbreviation ProviderConfig := ProviderConfig.t.

(** [class UniversalAIClient]: its only attribute is [self.config]. *)
Record UniversalAIClient : Type := mkClient {
  config : list (string * ProviderConfig)
}.

(** [_validate_config]: the loop over [self.config.items()]. *)
Fixpoint validate_items (items : list (string * ProviderConfig)) : Result unit :=
  match items with
  | [] => Ok tt
  | (provider, cfg) :: rest =>
      if decide (ProviderConfig.key cfg = "")
      then Raise (mkExc ValueError ("Missing API key for " +:+ provider))
      else validate_items rest
  end.

Definition _validate_config (self : UniversalAIClient) : Result unit :=
  validate_items (config self).

(** The dict display assigned to [self.config] in [__init__], given the
    three values read from the environment. *)
Definition build_config (openai_key claude_key gemini_key : string)
  : list (string * ProviderConfig) := [
    ("openai", ProviderConfig.make
       "https://api.openai.com/v1/chat/completions"
       openai_key "Authorization" "Bearer " None);
    ("claude", ProviderConfig.make
       "https://api.anthropic.com/v1/messages"
       claude_key "x-api-key" "" (Some "2023-06-01"));
    ("gemini", ProviderConfig.make
       "https://generativelanguage.googleapis.com/v1beta/models/gemini-1.5-pro:generateContent"
       gemini_key "" "" None)
  ].

(** [__init__]: the three credentials are read from the environment while
    the dict display is evaluated, then the configuration is validated. *)
Definition __init__ (env : gmap string string) : IO UniversalAIClient :=
  (openai_key <- os_getenv env "OPENAI_API_KEY" "";;
   claude_key <- os_getenv env "ANTHROPIC_API_KEY" "";;
   gemini_key <- os_getenv env "GOOGLE_API_KEY" "";;
   let self := mkClient (build_config openai_key claude_key gemini_key) in
   _ <- lift (_validate_config self);;
   ret self)%io.

(** [_build_headers] *)
Definition _build_headers (provider : string) (cfg : ProviderConfig)
  : gmap string (option string) :=
  let headers : gmap string (option string) :=
    {[ "Content-Type" := Some "application/json" ]} in
  if decide (provider = "openai") then
    <[ ProviderConfig.header cfg :=
         Some (ProviderConfig.prefix cfg +:+ ProviderConfig.key cfg) ]> headers
  else if decide (provider = "claude") then
    <[ "anthropic-version" := ProviderConfig.version_header cfg ]>
      (<[ ProviderConfig.header cfg := Some (ProviderConfig.key cfg) ]> headers)
  else headers.

(** [_build_payload] *)
Definition _build_payload (provider prompt : string) (model : option string)
    (max_tokens : Z) (temperature : float) : Result pyval :=
  if decide (provider = "openai") then
    Ok (py_dict [
      ("model", PStr (py_or model "gpt-4o"));
      ("messages", PList [py_dict [("role", PStr "user"); ("content", PStr prompt)]]);
      ("max_tokens", PInt max_tokens);
      ("temperature", PFloat temperature)])
  else if decide (provider = "claude") then
    Ok (py_dict [
      ("model", PStr (py_or model "claude-3-5-sonnet-20241022"));
      ("max_tokens", PInt max_tokens);
      ("messages", PList [py_dict [("role", PStr "user"); ("content", PStr prompt)]]);
      ("temperature", PFloat temperature)])
  else if decide (provider = "gemini") then
    Ok (py_dict [
      ("contents", PList [py_dict [("parts", PList [py_dict [("text", PStr prompt)]])]]);
      ("generationConfig", py_dict [
         ("temperature", PFloat temperature);
         ("maxOutputTokens", PInt max_tokens)])])
  else Raise (mkExc ValueError ("Unknown provider: " +:+ provider)).

(** The body of the [try] block of [_extract_response]: [Ok (Some v)] when
    a branch returns [v], [Ok None] when no branch is taken. *)
Definition extract_try (provider : string) (data : pyval) : Result (option pyval) :=
  (if decide (provider = "openai") then
     x <- getitem data (SStr "choices");;
     x <- getitem x (SInt 0);;
     x <- getitem x (SStr "message");;
     x <- getitem x (SStr "content");;
     Ok (Some x)
   else if decide (provider = "claude") then
     x <- getitem data (SStr "content");;
     x <- getitem x (SInt 0);;
     x <- getitem x (SStr "text");;
     Ok (Some x)
   else if decide (provider = "gemini") then
     x <- getitem data (SStr "candidates");;
     x <- getitem x (SInt 0);;
     x <- getitem x (SStr "content");;
     x <- getitem x (SStr "parts");;
     x <- getitem x (SInt 0);;
     x <- getitem x (SStr "text");;
     Ok (Some x)
   else Ok None)%result.

(** [except (KeyError, IndexError)] *)
Definition is_lookup_error (e : Exc) : bool :=
  match exc_class e with
  | KeyError | IndexError => true
  | _ => false
  end.

(** [_extract_response] *)
Definition _extract_response (provider : string) (data : pyval) : Result pyval :=
  match extract_try provider data with
  | Ok (Some text) => Ok text
  | Ok None => Raise (mkExc ValueError ("Unknown provider: " +:+ provider))
  | Raise e =>
      if is_lookup_error e
      then Raise (mkExc RuntimeError
                    ("Invalid " +:+ provider +:+ " response format: " +:+ exc_str e))
      else Raise e
  end.

(** The body of the [async with session.post(...) as resp] block of
    [chat]. *)
Definition chat_response (provider : string) (resp : Response) : Result pyval :=
  (if decide (resp_status resp ≠ 200) then
     error_text <- resp_text resp;;
     Raise (mkExc RuntimeError
              (provider +:+ " API error: HTTP " +:+ pretty (resp_status resp)
                 +:+ " - " +:+ error_text))
   else
     data <- resp_json resp;;
     _extract_response provider data)%result.

(** [chat] *)
Definition chat (self : UniversalAIClient) (net : Transport)
    (provider prompt : string) (model : option string)
    (max_tokens : Z) (temperature : float) : IO pyval :=
  match dict_get (config self) provider with
  | None => raise (mkExc ValueError ("Unknown provider: " +:+ provider))
  | Some cfg =>
      with_session
        (let headers := _build_headers provider cfg in
         payload <- lift (_build_payload provider prompt model max_tokens temperature);;
         let url :=
           if decide (provider = "gemini")
           then ProviderConfig.url cfg +:+ "?key=" +:+ ProviderConfig.key cfg
           else ProviderConfig.url cfg in
         resp <- post net (mkRequest url headers payload 30);;
         lift (chat_response provider resp))%io
  end.

(** [chat(provider, prompt)] with the default [model], [max_tokens] and
    [temperature]. *)
Definition chat_default (self : UniversalAIClient) (net : Transport)
    (provider prompt : string) : IO pyval :=
  chat self net provider prompt None 1000 0.7%float.

(** ** The vocabulary of the specification *)

(** The closed set of supported providers. *)
Definition providers : list string := ["openai"; "claude"; "gemini"].

(** The environment variable holding each provider's credential. *)
Definition credential_var (provider : string) : string :=
  if decide (provider = "openai") then "OPENAI_API_KEY"
  else if decide (provider = "claude") then "ANTHROPIC_API_KEY"
  else "GOOGLE_API_KEY".

(** A provider's credential in an environment; an unset variable counts
    as empty. *)
Definition credential (env : gmap string string) (provider : string) : string :=
  default "" (env !! credential_var provider).

(** The provider's default model. *)
Definition default_model (provider : string) : string :=
  if decide (provider = "openai") then "gpt-4o" else "claude-3-5-sonnet-20241022".

(** The four error kinds of the specification. *)
Inductive ErrorKind : Type :=
  | ConfigurationError
  | UnknownProviderError
  | ApiError
  | MalformedResponseError.

#[global] Instance ErrorKind_eq_dec : EqDecision ErrorKind.
Proof. solve_decision. Defined.


(** [s.startswith(pre)] *)
Fixpoint starts_with (pre s : string) : bool :=
  match pre, s with
  | EmptyString, _ => true
  | String a pre', String b s' => Ascii.eqb a b && starts_with pre' s'
  | String _ _, EmptyString => false
  end.

(** What a caller can recover from an exception object: its class and the
    fixed beginning of its message. *)
Definition kind_of_exc (e : Exc) : option ErrorKind :=
  match exc_class e with
  | ValueError =>
      if starts_with "Missing API key for " (exc_str e)
      then Some ConfigurationError
      else if starts_with "Unknown provider: " (exc_str e)
      then Some UnknownProviderError
      else None
  | RuntimeError =>
      if starts_with "Invalid " (exc_str e)
      then Some MalformedResponseError
      else if existsb (fun p => starts_with (p +:+ " API error: HTTP ") (exc_str e))
                      providers
      then Some ApiError
      else None
  | _ => None
  end.

(** The transport answers every request issued by the computation with
    the given outcome. *)
Definition answers {A} (net : Transport) (io : IO A) (outcome : Result Response) : Prop :=
  ∀ req, Post req ∈ io.1 → net req = outcome.

(** A transport that gives the same outcome whatever the request. *)
Definition mock (outcome : Result Response) : Transport := fun _ => outcome.

(** The fixed field path of each provider's reply. *)
Definition extraction_path (provider : string) : list Subscript :=
  if decide (provider = "openai") then
    [SStr "choices"; SInt 0; SStr "message"; SStr "content"]
  else if decide (provider = "claude") then
    [SStr "content"; SInt 0; SStr "text"]
  else
    [SStr "candidates"; SInt 0; SStr "content"; SStr "parts"; SInt 0; SStr "text"].

(** Navigation of a JSON document along a path: a key selects a member of
    an object, an index an element of an array. It ends at a value, at a
    step whose key or index is absent from the object or array reached, or
    at a step that meets a value of the wrong type. *)
Inductive Navigation : Type :=
  | Found (v : pyval)
  | Missing (v : pyval) (s : Subscript)
  | WrongType (v : pyval) (s : Subscript).

Fixpoint navigate (path : list Subscript) (v : pyval) : Navigation :=
  match path with
  | [] => Found v
  | s :: rest =>
      match v, s with
      | PDict d, SStr k =>
          match d !! k with
          | Some x => navigate rest x
          | None => Missing v s
          end
      | PList l, SInt i =>
          match seq_index (length l) i ≫= (l !!.) with
          | Some x => navigate rest x
          | None => Missing v s
          end
      | _, _ => WrongType v s
      end
  end.

(** How Python words the failed lookup of a step. *)
Definition lookup_failure (s : Subscript) : string :=
  match s with
  | SStr k => py_repr k
  | SInt _ => "list index out of range"
  end.

(** The wrong-type steps that Python still reports as a failed lookup: an
    object met by an index (no such key) and a string too short for the
    index, the empty string for one (out of range). *)
Definition reported_as_lookup (v : pyval) (s : Subscript) : option string :=
  match v, s with
  | PDict _, SInt i => Some (pretty i)
  | PStr str, SInt i =>
      match seq_index (String.length str) i with
      | Some _ => None
      | None => Some "string index out of range"
      end
  | _, _ => None
  end.

(** [a ?? b] *)
Definition coalesce (a : option string) (b : string) : string := default b a.

(** The provider-native request bodies as the specification writes
    them. *)
Definition spec_payload (provider prompt : string) (model : option string)
    (maxTokens : Z) (temperature : float) : pyval :=
  if decide (provider = "openai") then
    py_dict [
      ("model", PStr (coalesce model "gpt-4o"));
      ("messages", PList [py_dict [("role", PStr "user"); ("content", PStr prompt)]]);
      ("max_tokens", PInt maxTokens);
      ("temperature", PFloat temperature)]
  else if decide (provider = "claude") then
    py_dict [
      ("model", PStr (coalesce model "claude-3-5-sonnet-20241022"));
      ("max_tokens", PInt maxTokens);
      ("messages", PList [py_dict [("role", PStr "user"); ("content", PStr prompt)]]);
      ("temperature", PFloat temperature)]
  else
    py_dict [
      ("contents", PList [py_dict [("parts", PList [py_dict [("text", PStr prompt)]])]]);
      ("generationConfig", py_dict [
         ("temperature", PFloat temperature);
         ("maxOutputTokens", PInt maxTokens)])].

(** The exceptions that come from the transport: raised by the post
    itself, or by reading the body of the response as text or as JSON. *)
Definition raised_by_transport (outcome : Result Response) (e : Exc) : Prop :=
  match outcome with
  | Raise e' => e' = e
  | Ok resp => resp_text resp = Raise e \/ resp_json resp = Raise e
  end.

(** The failing executions behind each error kind of the specification:
    construction that raises, a call for an unsupported provider, a call
    answered with a status other than 200 whose body text is read, and a
    call answered with status 200 and a decoded body in which a key or an
    index of the provider's path is absent. *)
Inductive Fails : ErrorKind -> Exc -> Prop :=
  | Fails_configuration env e :
      (__init__ env).2 = Raise e ->
      Fails ConfigurationError e
  | Fails_unknown_provider env self net provider prompt model max_tokens temperature e :
      (__init__ env).2 = Ok self ->
      provider ∉ providers ->
      (chat self net provider prompt model max_tokens temperature).2 = Raise e ->
      Fails UnknownProviderError e
  | Fails_api env self net provider prompt model max_tokens temperature resp text e :
      (__init__ env).2 = Ok self ->
      provider ∈ providers ->
      answers net (chat self net provider prompt model max_tokens temperature) (Ok resp) ->
      resp_status resp ≠ 200 ->
      resp_text resp = Ok text ->
      (chat self net provider prompt model max_tokens temperature).2 = Raise e ->
      Fails ApiError e
  | Fails_malformed env self net provider prompt model max_tokens temperature resp data v s e :
      (__init__ env).2 = Ok self ->
      provider ∈ providers ->
      answers net (chat self net provider prompt model max_tokens temperature) (Ok resp) ->
      resp_status resp = 200 ->
      resp_json resp = Ok data ->
      navigate (extraction_path provider) data = Missing v s ->
      (chat self net provider prompt model max_tokens temperature).2 = Raise e ->
      Fails MalformedResponseError e.

(** [v[s1][s2]...[sn]]: Python's subscripting iterated along a path. *)
Fixpoint walk (path : list Subscript) (v : pyval) : Result pyval :=
  match path with
  | [] => Ok v
  | s :: rest => rbind (getitem v s) (walk rest)
  end.

(** Every index of the path is followed by a key. *)
Fixpoint index_then_key (path : list Subscript) : bool :=
  match path with
  | [] => true
  | SInt _ :: rest =>
      match rest with
      | SStr _ :: _ => index_then_key rest
      | _ => false
      end
  | SStr _ :: rest => index_then_key rest
  end.

(** The Python exception class of a failed lookup. *)
Definition lookup_class (s : Subscript) : ExcClass :=
  match s with
  | SStr _ => KeyError
  | SInt _ => IndexError
  end.

(** ** Sample inputs *)

Definition env_full : gmap string string :=
  {[ "OPENAI_API_KEY" := "sk-o"; "ANTHROPIC_API_KEY" := "sk-a"; "GOOGLE_API_KEY" := "g-k" ]}.

(** [ANTHROPIC_API_KEY] is unset. *)
Definition env_no_claude : gmap string string :=
  {[ "OPENAI_API_KEY" := "sk-o"; "GOOGLE_API_KEY" := "g-k" ]}.

Definition client_full : UniversalAIClient :=
  mkClient (build_config "sk-o" "sk-a" "g-k").

(** [{"choices":[{"message":{"content":"hello"}}]}] *)
Definition body_openai : pyval :=
  py_dict [("choices", PList [py_dict [("message", py_dict [("content", PStr "hello")])]])].

(** [{"content":[{"text":"hi there"}]}] *)
Definition body_claude : pyval :=
  py_dict [("content", PList [py_dict [("text", PStr "hi there")]])].

(** [{"candidates":[{"content":{"parts":[{"text":"yo"}]}}]}] *)
Definition body_gemini : pyval :=
  py_dict [("candidates", PList [py_dict [("content",
     py_dict [("parts", PList [py_dict [("text", PStr "yo")]])])]])].

(** [{}] *)
Definition body_empty : pyval := py_dict [].

(** [{"choices": {}}]: an object where the path expects an array. *)
Definition body_choices_object : pyval := py_dict [("choices", py_dict [])].

(** [{"choices": [null]}] *)
Definition body_choices_null : pyval := py_dict [("choices", PList [PNone])].

Definition response_200 (data : pyval) : Response :=
  mkResponse 200 (Ok "") (Ok data).

(** Status 500 with body text [server error]. *)
Definition response_500 : Response :=
  mkResponse 500 (Ok "server error")
    (Raise (mkExc ContentTypeError "Attempt to decode JSON with unexpected mimetype: text/plain")).

(** Status 200 with a body that is not JSON. *)
Definition response_not_json : Response :=
  mkResponse 200 (Ok "<html>")
    (Raise (mkExc JSONDecodeError "Expecting value: line 1 column 1 (char 0)")).

(** ** The usage example *)

(** An f-string: literal text and [{v}] fields. A field holding a [str]
    prints as the string itself. *)
Inductive Piece : Type :=
  | Lit (s : string)
  | Fmt (v : pyval).

(** What a run of [main] does: the effects of the client and the lines
    given to [print]. *)
Inductive Output : Type :=
  | Effect (ev : Event)
  | Print (line : list Piece).

Definition Script (A : Type) : Type := list Output * Result A.

Definition run {A} (io : IO A) : Script A := (Effect <$> io.1, io.2).

Definition print (line : list Piece) : Script unit := ([Print line], Ok tt).

Definition sbind {A B} (m : Script A) (f : A -> Script B) : Script B :=
  match m with
  | (t, Ok a) => let '(t', r) := f a in (t ++ t', r)
  | (t, Raise e) => (t, Raise e)
  end.

Declare Scope script_scope.
Delimit Scope script_scope with script.
Notation "x <- m ;; k" := (sbind m (fun x => k))
  (at level 100, m at next level, right associativity) : script_scope.

(** The line feed. *)
Definition nl : string := String (Ascii.ascii_of_nat 10) EmptyString.

(** The [except] clauses of [main]. *)
Inductive Handler : Type :=
  | ExceptValueError
  | ExceptRuntimeError
  | ExceptException.

(** [isinstance(e, cls)] for the class of an [except] clause:
    [json.JSONDecodeError] derives from [ValueError], every named class of
    [ExcClass] derives from [Exception], and another class is caught
    according to its ancestry ([ValueError] and [RuntimeError] derive from
    [Exception] themselves). *)
Definition handles (h : Handler) (c : ExcClass) : bool :=
  match h, c with
  | ExceptValueError, (ValueError | JSONDecodeError) => true
  | ExceptValueError, OtherClass _ value_error _ _ => value_error
  | ExceptValueError, _ => false
  | ExceptRuntimeError, RuntimeError => true
  | ExceptRuntimeError, OtherClass _ _ runtime_error _ => runtime_error
  | ExceptRuntimeError, _ => false
  | ExceptException, OtherClass _ value_error runtime_error exception =>
      value_error || runtime_error || exception
  | ExceptException, _ => true
  end.

(** The three calls of [main]. *)
Definition call_openai (client : UniversalAIClient) (net : Transport) : IO pyval :=
  chat client net "openai" "Explain AI security in one sentence" None 1000 0.7%float.

Definition call_claude (client : UniversalAIClient) (net : Transport) : IO pyval :=
  chat client net "claude" "Write a haiku about cybersecurity" None 100 0.7%float.

Definition call_gemini (client : UniversalAIClient) (net : Transport) : IO pyval :=
  chat client net "gemini" "What is prompt injection?" None 1000 0.7%float.

(** The body of the [try] block of [main]. *)
Definition main_try (env : gmap string string) (net : Transport) : Script unit :=
  (client <- run (__init__ env);;
   _ <- print [Lit "Requesting from OpenAI..."];;
   response <- run (call_openai client net);;
   _ <- print [Lit "OpenAI: "; Fmt response; Lit nl];;
   _ <- print [Lit "Requesting from Claude..."];;
   response <- run (call_claude client net);;
   _ <- print [Lit "Claude: "; Fmt response; Lit nl];;
   _ <- print [Lit "Requesting from Gemini..."];;
   response <- run (call_gemini client net);;
   print [Lit "Gemini: "; Fmt response; Lit nl])%script.

(** [main]: the [try] block and its three [except] clauses, tried in
    order. *)
Definition main (env : gmap string string) (net : Transport) : Script unit :=
  match main_try env net with
  | (t, Ok _) => (t, Ok tt)
  | (t, Raise e) =>
      if handles ExceptValueError (exc_class e) then
        (t ++ [Print [Lit ("Configuration error: " +:+ exc_str e)]], Ok tt)
      else if handles ExceptRuntimeError (exc_class e) then
        (t ++ [Print [Lit ("API error: " +:+ exc_str e)]], Ok tt)
      else if handles ExceptException (exc_class e) then
        (t ++ [Print [Lit ("Unexpected error: " +:+ exc_str e)]], Ok tt)
      else (t, Raise e)
  end.


Definition prints (out : list Output) : list (list Piece) :=
  omap (fun o => match o with Print line => Some line | _ => None end) out.

(** The label under which [main] reports an exception, by its class:
    "Configuration error: " for [ValueError] and what derives from it,
    "API error: " for [RuntimeError] and what derives from it (and not from
    [ValueError]), "Unexpected error: " for what else derives from
    [Exception], and none for a class outside [Exception]. *)
Definition error_label (c : ExcClass) : option string :=
  match c with
  | ValueError | JSONDecodeError => Some "Configuration error: "
  | RuntimeError => Some "API error: "
  | OtherClass _ true _ _ => Some "Configuration error: "
  | OtherClass _ false true _ => Some "API error: "
  | OtherClass _ false false true => Some "Unexpected error: "
  | OtherClass _ false false false => None
  | KeyError | IndexError | TypeError | TimeoutError | ClientConnectionError
  | ContentTypeError => Some "Unexpected error: "
  end.

(** How a run of [main] ends when a call raises: with the line for the
    exception, its label and [str(e)], or, for an exception no clause
    catches, with the exception itself. *)
Definition main_except (e : Exc) : Script unit :=
  match error_label (exc_class e) with
  | Some label => ([Print [Lit (label +:+ exc_str e)]], Ok tt)
  | None => ([], Raise e)
  end.


(** Sample classes outside the named ones. *)
Definition UnicodeDecodeError : ExcClass :=
  OtherClass "UnicodeDecodeError" true false true.

Definition RecursionError : ExcClass :=
  OtherClass "RecursionError" false true true.

Definition CancelledError : ExcClass :=
  OtherClass "CancelledError" false false false.


(** ** Basic facts *)

(** Decide the comparisons of a known provider name. *)
Ltac provider_cases := repeat (case_decide; try discriminate; try congruence).

Lemma elem_of_providers (p : string) :
  p ∈ providers <-> p = "openai" \/ p = "claude" \/ p = "gemini".
Proof. unfold providers. rewrite !elem_of_cons, elem_of_nil. tauto. Qed.

Lemma init_trace (env : gmap string string) :
  (__init__ env).1 =
    [GetEnv "OPENAI_API_KEY"; GetEnv "ANTHROPIC_API_KEY"; GetEnv "GOOGLE_API_KEY"].
Proof.
  unfold __init__, _validate_config, build_config, os_getenv. cbn.
  repeat (case_decide; cbn; try reflexivity).
Qed.

Lemma init_ok_inv (env : gmap string string) (self : UniversalAIClient) :
  (__init__ env).2 = Ok self ->
  self = mkClient (build_config (credential env "openai") (credential env "claude")
                     (credential env "gemini"))
  /\ credential env "openai" ≠ "" /\ credential env "claude" ≠ ""
  /\ credential env "gemini" ≠ "".
Proof.
  unfold __init__, _validate_config, build_config, os_getenv, credential. cbn.
  repeat (case_decide; cbn; try discriminate).
  intros [= <-]. auto.
Qed.

(** A call whose provider is configured and whose payload is built opens a
    session, posts one request and hands the outcome to [chat_response]. *)
Lemma chat_unfold (self : UniversalAIClient) (net : Transport)
    (provider prompt : string) (model : option string) (max_tokens : Z)
    (temperature : float) (cfg : ProviderConfig) (payload : pyval) :
  dict_get (config self) provider = Some cfg ->
  _build_payload provider prompt model max_tokens temperature = Ok payload ->
  let req := mkRequest
    (if decide (provider = "gemini")
     then ProviderConfig.url cfg +:+ "?key=" +:+ ProviderConfig.key cfg
     else ProviderConfig.url cfg)
    (_build_headers provider cfg) payload 30 in
  chat self net provider prompt model max_tokens temperature
  = ([SessionOpen; Post req; SessionClose],
     rbind (net req) (chat_response provider)).
Proof.
  intros Hcfg Hpayload req. unfold chat. rewrite Hcfg, Hpayload.
  unfold with_session, bind, lift, post. fold req.
  destruct (net req); reflexivity.
Qed.

Lemma build_payload_ok (provider prompt : string) (model : option string)
    (max_tokens : Z) (temperature : float) :
  provider ∈ providers ->
  exists payload,
    _build_payload provider prompt model max_tokens temperature = Ok payload.
Proof.
  intros Hp. apply elem_of_providers in Hp.
  destruct Hp as [-> | [-> | ->]]; eexists; reflexivity.
Qed.

Lemma config_lookup (k1 k2 k3 provider : string) :
  provider ∈ providers ->
  exists cfg, dict_get (build_config k1 k2 k3) provider = Some cfg.
Proof.
  intros Hp. apply elem_of_providers in Hp.
  destruct Hp as [-> | [-> | ->]]; eexists; reflexivity.
Qed.

Lemma config_lookup_none (k1 k2 k3 provider : string) :
  provider ∉ providers ->
  dict_get (build_config k1 k2 k3) provider = None.
Proof.
  rewrite elem_of_providers. intros Hp. unfold build_config. cbn.
  repeat (case_decide; [tauto |]). reflexivity.
Qed.

(** A client that was constructed answers a call for a supported provider
    with exactly one request, whatever the transport does. *)
Lemma chat_supported (env : gmap string string) (self : UniversalAIClient)
    (provider prompt : string) (model : option string) (max_tokens : Z)
    (temperature : float) :
  (__init__ env).2 = Ok self ->
  provider ∈ providers ->
  exists req, forall net,
    chat self net provider prompt model max_tokens temperature
    = ([SessionOpen; Post req; SessionClose],
       rbind (net req) (chat_response provider)).
Proof.
  intros Hinit Hp. apply init_ok_inv in Hinit as [-> _].
  destruct (config_lookup (credential env "openai") (credential env "claude")
              (credential env "gemini") provider Hp) as [cfg Hcfg].
  destruct (build_payload_ok provider prompt model max_tokens temperature Hp)
    as [payload Hpayload].
  eexists. intros net. apply chat_unfold; eassumption.
Qed.

(** With the transport's answer known, the outcome of the call is that of
    [chat_response]. *)
Lemma chat_answered (env : gmap string string) (self : UniversalAIClient)
    (net : Transport) (provider prompt : string) (model : option string)
    (max_tokens : Z) (temperature : float) (outcome : Result Response) :
  (__init__ env).2 = Ok self ->
  provider ∈ providers ->
  answers net (chat self net provider prompt model max_tokens temperature) outcome ->
  (chat self net provider prompt model max_tokens temperature).2
  = rbind outcome (chat_response provider).
Proof.
  intros Hinit Hp Hnet.
  destruct (chat_supported env self provider prompt model max_tokens temperature
              Hinit Hp) as [req Hreq].
  unfold answers in Hnet. rewrite Hreq in Hnet |- *. cbn [fst snd] in *.
  rewrite (Hnet req); [reflexivity |].
  rewrite !elem_of_cons. auto.
Qed.

(** ** Extraction and navigation *)

Lemma extract_response_walk (provider : string) (data : pyval) :
  provider ∈ providers ->
  _extract_response provider data =
    match walk (extraction_path provider) data with
    | Ok text => Ok text
    | Raise e =>
        if is_lookup_error e
        then Raise (mkExc RuntimeError
                      ("Invalid " +:+ provider +:+ " response format: " +:+ exc_str e))
        else Raise e
    end.
Proof.
  intros Hp. apply elem_of_providers in Hp.
  destruct Hp as [-> | [-> | ->]];
    unfold _extract_response, extract_try, extraction_path;
    provider_cases; cbn;
    repeat (match goal with
            | |- context [getitem ?v ?s] => destruct (getitem v s); cbn
            end; try reflexivity).
Qed.

Lemma extraction_path_shape (provider : string) :
  index_then_key (extraction_path provider) = true.
Proof. unfold extraction_path. provider_cases; reflexivity. Qed.

Lemma seq_index_lt (n : nat) (i : Z) (j : nat) :
  seq_index n i = Some j -> (j < n)%nat.
Proof.
  unfold seq_index. repeat case_decide; intros [= <-]; lia.
Qed.

Lemma string_nth_lt (str : string) (j : nat) :
  (j < String.length str)%nat -> exists c, string_nth str j = Some c.
Proof.
  unfold string_nth. revert j.
  induction str as [| a str IH]; intros j Hj; cbn in Hj; [lia |].
  destruct j as [| j]; cbn; [eauto |]. apply IH. lia.
Qed.

Lemma navigate_found (path : list Subscript) :
  forall v x, navigate path v = Found x -> walk path v = Ok x.
Proof.
  induction path as [| s rest IH]; intros v x; cbn.
  - congruence.
  - destruct v, s; try discriminate; cbn.
    + destruct (seq_index _ _ ≫= _); [apply IH | discriminate].
    + destruct (_ !! _); [apply IH | discriminate].
Qed.

Lemma navigate_missing (path : list Subscript) :
  forall v u s,
    navigate path v = Missing u s ->
    walk path v = Raise (mkExc (lookup_class s) (lookup_failure s)).
Proof.
  induction path as [| s0 rest IH]; intros v u s; cbn.
  - discriminate.
  - destruct v, s0; try discriminate; cbn.
    + destruct (seq_index _ _ ≫= _); [apply IH |]. intros [= _ <-]. reflexivity.
    + destruct (_ !! _); [apply IH |]. intros [= _ <-]. reflexivity.
Qed.

Lemma navigate_wrong_type (path : list Subscript) :
  forall v u s,
    index_then_key path = true ->
    navigate path v = WrongType u s ->
    match reported_as_lookup u s with
    | Some msg => exists c, is_lookup_error (mkExc c msg) = true
                            /\ walk path v = Raise (mkExc c msg)
    | None => exists msg, walk path v = Raise (mkExc TypeError msg)
    end.
Proof.
  induction path as [| s0 rest IH]; intros v u s Hshape; [discriminate |].
  assert (Hrest : index_then_key rest = true).
  { cbn in Hshape. destruct s0; [assumption |].
    destruct rest as [| [] ?]; (discriminate || assumption). }
  cbn [navigate walk].
  destruct v as [| b | z | f | str | l | d], s0 as [k | i];
    try (intros [= <- <-]; cbn;
         first [ eexists; reflexivity
               | eexists; split; [| reflexivity]; reflexivity ]).
  - (* a string met by an index *)
    intros [= <- <-]. cbn.
    destruct (seq_index (String.length str) i) as [j |] eqn:Hj; cbn.
    + destruct (string_nth_lt str j (seq_index_lt _ _ _ Hj)) as [c ->]. cbn.
      cbn in Hshape. destruct rest as [| [k | ?] rest']; try discriminate.
      cbn. eauto.
    + exists IndexError. split; reflexivity.
  - (* an index into a list *)
    cbn. destruct (seq_index _ _ ≫= _); [apply IH; assumption | discriminate].
  - (* a key of a dict *)
    cbn. destruct (_ !! _); [apply IH; assumption | discriminate].
Qed.

(** ** Construction *)

Lemma init_result (env : gmap string string) :
  (__init__ env).2 =
    if decide (credential env "openai" = "") then
      Raise (mkExc ValueError "Missing API key for openai")
    else if decide (credential env "claude" = "") then
      Raise (mkExc ValueError "Missing API key for claude")
    else if decide (credential env "gemini" = "") then
      Raise (mkExc ValueError "Missing API key for gemini")
    else Ok (mkClient (build_config (credential env "openai")
                         (credential env "claude") (credential env "gemini"))).
Proof.
  change (credential env "openai") with (default "" (env !! "OPENAI_API_KEY")).
  change (credential env "claude") with (default "" (env !! "ANTHROPIC_API_KEY")).
  change (credential env "gemini") with (default "" (env !! "GOOGLE_API_KEY")).
  unfold __init__, _validate_config, build_config, os_getenv. cbn.
  repeat (case_decide; cbn; try reflexivity).
Qed.

Lemma init_raise_inv (env : gmap string string) (e : Exc) :
  (__init__ env).2 = Raise e ->
  exists p, p ∈ providers /\ credential env p = ""
            /\ e = mkExc ValueError ("Missing API key for " +:+ p).
Proof.
  rewrite init_result. repeat case_decide; [| | | discriminate];
    intros [= <-]; eexists; rewrite elem_of_providers; eauto.
Qed.

(** ** What a caller reads off each exception *)

Lemma kind_of_missing_key (p : string) :
  kind_of_exc (mkExc ValueError ("Missing API key for " +:+ p))
  = Some ConfigurationError.
Proof. reflexivity. Qed.

Lemma kind_of_unknown_provider (p : string) :
  kind_of_exc (mkExc ValueError ("Unknown provider: " +:+ p))
  = Some UnknownProviderError.
Proof. reflexivity. Qed.

Lemma kind_of_invalid_response (p detail : string) :
  kind_of_exc (mkExc RuntimeError
                 ("Invalid " +:+ p +:+ " response format: " +:+ detail))
  = Some MalformedResponseError.
Proof. reflexivity. Qed.

Lemma kind_of_api_error (p detail : string) :
  p ∈ providers ->
  kind_of_exc (mkExc RuntimeError (p +:+ " API error: HTTP " +:+ detail))
  = Some ApiError.
Proof.
  intros Hp. apply elem_of_providers in Hp.
  destruct Hp as [-> | [-> | ->]]; reflexivity.
Qed.

(** ** Calls *)

Lemma chat_unknown (env : gmap string string) (self : UniversalAIClient)
    (net : Transport) (provider prompt : string) (model : option string)
    (max_tokens : Z) (temperature : float) :
  (__init__ env).2 = Ok self ->
  provider ∉ providers ->
  chat self net provider prompt model max_tokens temperature
  = ([], Raise (mkExc ValueError ("Unknown provider: " +:+ provider))).
Proof.
  intros Hinit Hp. apply init_ok_inv in Hinit as [-> _].
  unfold chat. cbn [config]. rewrite config_lookup_none by assumption.
  reflexivity.
Qed.

Section Answered.
Context (env : gmap string string) (self : UniversalAIClient)
  (net : Transport) (provider prompt : string) (model : option string)
  (max_tokens : Z) (temperature : float).
Hypothesis Hinit : (__init__ env).2 = Ok self.
Hypothesis Hprovider : provider ∈ providers.

#[local] Abbreviation call :=
  (chat self net provider prompt model max_tokens temperature).

Lemma chat_transport_raises (e : Exc) :
  answers net call (Raise e) -> call.2 = Raise e.
Proof.
  intros Hnet. erewrite chat_answered by eassumption. reflexivity.
Qed.

Section Responded.
Context (resp : Response).
Hypothesis Hnet : answers net call (Ok resp).

Lemma chat_responded : call.2 = chat_response provider resp.
Proof. erewrite chat_answered by eassumption. reflexivity. Qed.

Lemma chat_status_error (text : string) :
  resp_status resp ≠ 200 ->
  resp_text resp = Ok text ->
  call.2 = Raise (mkExc RuntimeError
                    (provider +:+ " API error: HTTP "
                       +:+ pretty (resp_status resp) +:+ " - " +:+ text)).
Proof.
  intros Hstatus Htext. rewrite chat_responded. unfold chat_response.
  rewrite decide_True by assumption. rewrite Htext. reflexivity.
Qed.

Lemma chat_text_raises (e : Exc) :
  resp_status resp ≠ 200 -> resp_text resp = Raise e -> call.2 = Raise e.
Proof.
  intros Hstatus Htext. rewrite chat_responded. unfold chat_response.
  rewrite decide_True by assumption. rewrite Htext. reflexivity.
Qed.

Lemma chat_json_raises (e : Exc) :
  resp_status resp = 200 -> resp_json resp = Raise e -> call.2 = Raise e.
Proof.
  intros Hstatus Hjson. rewrite chat_responded. unfold chat_response.
  rewrite decide_False by (intros H; apply H, Hstatus).
  rewrite Hjson. reflexivity.
Qed.

Lemma chat_decoded (data : pyval) :
  resp_status resp = 200 ->
  resp_json resp = Ok data ->
  call.2 = _extract_response provider data.
Proof.
  intros Hstatus Hjson. rewrite chat_responded. unfold chat_response.
  rewrite decide_False by (intros H; apply H, Hstatus).
  rewrite Hjson. reflexivity.
Qed.
End Responded.
End Answered.

(** ** Properties of the client *)

(** C7: constructing the client reads [OPENAI_API_KEY],
    [ANTHROPIC_API_KEY] and [GOOGLE_API_KEY] once each; when every
    credential is present and non-empty construction succeeds, and when one
    is empty or unset it fails with the configuration error
    ([ValueError], "Missing API key for <provider>") that names the first
    provider, in the order openai, claude, gemini, whose credential is
    missing. *)
Theorem init_requires_credentials (env : gmap string string) :
  (__init__ env).1 =
    [GetEnv "OPENAI_API_KEY"; GetEnv "ANTHROPIC_API_KEY"; GetEnv "GOOGLE_API_KEY"]
  /\ ((forall p, p ∈ providers -> credential env p ≠ "") ->
      exists self, (__init__ env).2 = Ok self)
  /\ (forall p, p ∈ providers -> credential env p = "" ->
      exists q e,
        q ∈ providers /\ credential env q = ""
        /\ e = mkExc ValueError ("Missing API key for " +:+ q)
        /\ (__init__ env).2 = Raise e
        /\ kind_of_exc e = Some ConfigurationError)
  /\ (credential env "openai" = "" ->
      (__init__ env).2 = Raise (mkExc ValueError "Missing API key for openai"))
  /\ (credential env "openai" ≠ "" -> credential env "claude" = "" ->
      (__init__ env).2 = Raise (mkExc ValueError "Missing API key for claude"))
  /\ (credential env "openai" ≠ "" -> credential env "claude" ≠ "" ->
      credential env "gemini" = "" ->
      (__init__ env).2 = Raise (mkExc ValueError "Missing API key for gemini")).
Proof.
  split; [apply init_trace |]. rewrite init_result.
  split; [| split; [| split; [| split]]].
  - intros Hall.
    rewrite !decide_False by (apply Hall; rewrite elem_of_providers; auto).
    eauto.
  - intros p Hp Hempty. apply elem_of_providers in Hp.
    repeat case_decide;
      [ exists "openai" | exists "claude" | exists "gemini"
      | destruct Hp as [-> | [-> | ->]]; contradiction ];
      (eexists; rewrite elem_of_providers;
       split; [auto |]; split; [assumption |];
       split; [reflexivity |]; split; reflexivity).
  - intros H. rewrite decide_True by assumption. reflexivity.
  - intros H1 H2. rewrite decide_False, decide_True by assumption. reflexivity.
  - intros H1 H2 H3.
    rewrite !decide_False, decide_True by assumption. reflexivity.
Qed.

Lemma init_requires_credentials_witness :
  (exists self, (__init__ env_full).2 = Ok self)
  /\ (__init__ env_no_claude).2
     = Raise (mkExc ValueError "Missing API key for claude").
Proof.
  split.
  - apply (init_requires_credentials env_full).
    intros p Hp. apply elem_of_providers in Hp.
    destruct Hp as [-> | [-> | ->]]; vm_compute; discriminate.
  - apply (init_requires_credentials env_no_claude).
    + vm_compute; discriminate.
    + vm_compute; reflexivity.
Defined.

(** C8: a call whose provider is outside the closed set openai, claude,
    gemini fails with the unknown-provider error ([ValueError],
    "Unknown provider: <provider>") and no event at all: no session is
    opened and no request is posted. *)
Theorem chat_rejects_unknown_provider (env : gmap string string)
    (self : UniversalAIClient) (net : Transport) (provider prompt : string)
    (model : option string) (max_tokens : Z) (temperature : float) :
  (__init__ env).2 = Ok self ->
  provider ∉ providers ->
  let e := mkExc ValueError ("Unknown provider: " +:+ provider) in
  chat self net provider prompt model max_tokens temperature = ([], Raise e)
  /\ kind_of_exc e = Some UnknownProviderError.
Proof.
  intros Hinit Hp. split; [| reflexivity].
  eapply chat_unknown; eassumption.
Qed.

Lemma chat_rejects_unknown_provider_witness :
  chat_default client_full (mock (Ok (response_200 body_openai))) "unknown" "hi"
  = ([], Raise (mkExc ValueError "Unknown provider: unknown")).
Proof.
  apply (chat_rejects_unknown_provider env_full).
  - vm_compute; reflexivity.
  - rewrite elem_of_providers. intros [H | [H | H]]; discriminate H.
Defined.

Lemma answers_mock {A} (outcome : Result Response) (io : IO A) :
  answers (mock outcome) io outcome.
Proof. intros req _. reflexivity. Qed.

(** C5: when the transport answers with status 200 and a decoded body in
    which the provider's fixed path ([choices[0].message.content] for
    openai, [content[0].text] for claude,
    [candidates[0].content.parts[0].text] for gemini) leads to a value,
    the call returns that value. *)
Theorem chat_returns_text_at_path (env : gmap string string)
    (self : UniversalAIClient) (net : Transport) (provider prompt : string)
    (model : option string) (max_tokens : Z) (temperature : float)
    (resp : Response) (data text : pyval) :
  (__init__ env).2 = Ok self ->
  provider ∈ providers ->
  answers net (chat self net provider prompt model max_tokens temperature) (Ok resp) ->
  resp_status resp = 200 ->
  resp_json resp = Ok data ->
  navigate (extraction_path provider) data = Found text ->
  (chat self net provider prompt model max_tokens temperature).2 = Ok text.
Proof.
  intros Hinit Hp Hnet Hstatus Hjson Hnav.
  rewrite (chat_decoded env self net provider prompt model max_tokens
             temperature Hinit Hp resp Hnet data Hstatus Hjson).
  rewrite extract_response_walk by assumption.
  rewrite (navigate_found _ _ _ Hnav). reflexivity.
Qed.

Lemma chat_returns_text_at_path_witness :
  (chat_default client_full (mock (Ok (response_200 body_openai))) "openai" "hi").2
  = Ok (PStr "hello").
Proof.
  apply (chat_returns_text_at_path env_full client_full _ "openai" "hi" None
           1000 0.7%float (response_200 body_openai) body_openai (PStr "hello")).
  - vm_compute; reflexivity.
  - rewrite elem_of_providers; auto.
  - apply answers_mock.
  - reflexivity.
  - reflexivity.
  - vm_compute; reflexivity.
Defined.

Example chat_claude_hi_there :
  (chat_default client_full (mock (Ok (response_200 body_claude))) "claude" "hi").2
  = Ok (PStr "hi there").
Proof. vm_compute; reflexivity. Qed.

Example chat_gemini_yo :
  (chat_default client_full (mock (Ok (response_200 body_gemini))) "gemini" "hi").2
  = Ok (PStr "yo").
Proof. vm_compute; reflexivity. Qed.

(** The empty object lacks the first key of every provider's path. *)
Lemma navigate_empty_body (provider : string) :
  exists k,
    extraction_path provider !! 0%nat = Some (SStr k)
    /\ navigate (extraction_path provider) body_empty = Missing body_empty (SStr k).
Proof.
  unfold extraction_path. provider_cases; eexists; split; reflexivity.
Qed.

(** A key or an index of the path that is absent is reported under the
    provider's name with Python's wording of the failed lookup. *)
Lemma chat_missing (env : gmap string string) (self : UniversalAIClient)
    (net : Transport) (provider prompt : string) (model : option string)
    (max_tokens : Z) (temperature : float) (resp : Response) (data v : pyval)
    (s : Subscript) :
  (__init__ env).2 = Ok self ->
  provider ∈ providers ->
  answers net (chat self net provider prompt model max_tokens temperature) (Ok resp) ->
  resp_status resp = 200 ->
  resp_json resp = Ok data ->
  navigate (extraction_path provider) data = Missing v s ->
  (chat self net provider prompt model max_tokens temperature).2
  = Raise (mkExc RuntimeError
             ("Invalid " +:+ provider +:+ " response format: " +:+ lookup_failure s)).
Proof.
  intros Hinit Hp Hnet Hstatus Hjson Hnav.
  rewrite (chat_decoded env self net provider prompt model max_tokens
             temperature Hinit Hp resp Hnet data Hstatus Hjson).
  rewrite extract_response_walk by assumption.
  rewrite (navigate_missing _ _ _ _ Hnav). destruct s; reflexivity.
Qed.

(** C6: when the transport answers with status 200 and a decoded body in
    which a key of the provider's path is absent from the object reached,
    or an index is out of the range of the array reached, the call fails
    with the malformed-response error ([RuntimeError],
    "Invalid <provider> response format: <lookup failure>"), which names
    the provider and the failed lookup: the quoted key, or
    "list index out of range". *)
Theorem chat_reports_missing_field (env : gmap string string)
    (self : UniversalAIClient) (net : Transport) (provider prompt : string)
    (model : option string) (max_tokens : Z) (temperature : float)
    (resp : Response) (data : pyval) :
  (__init__ env).2 = Ok self ->
  provider ∈ providers ->
  answers net (chat self net provider prompt model max_tokens temperature) (Ok resp) ->
  resp_status resp = 200 ->
  resp_json resp = Ok data ->
  (forall v s,
     navigate (extraction_path provider) data = Missing v s ->
     let e := mkExc RuntimeError
                ("Invalid " +:+ provider +:+ " response format: "
                   +:+ lookup_failure s) in
     (chat self net provider prompt model max_tokens temperature).2 = Raise e
     /\ kind_of_exc e = Some MalformedResponseError)
  /\ (data = body_empty ->
      exists k,
        extraction_path provider !! 0%nat = Some (SStr k)
        /\ (chat self net provider prompt model max_tokens temperature).2
           = Raise (mkExc RuntimeError
                      ("Invalid " +:+ provider +:+ " response format: "
                         +:+ py_repr k))).
Proof.
  intros Hinit Hp Hnet Hstatus Hjson. split.
  - intros v s Hnav. split; [| reflexivity].
    eapply chat_missing; eassumption.
  - intros ->. destruct (navigate_empty_body provider) as (k & Hpath & Hnav).
    exists k. split; [assumption |].
    apply (chat_missing env self net provider prompt model max_tokens
             temperature resp body_empty body_empty (SStr k)); assumption.
Qed.

Lemma chat_reports_missing_field_witness :
  (chat_default client_full (mock (Ok (response_200 body_empty))) "openai" "hi").2
  = Raise (mkExc RuntimeError "Invalid openai response format: 'choices'").
Proof.
  refine (proj1 (proj1 (chat_reports_missing_field env_full client_full
            (mock (Ok (response_200 body_empty))) "openai" "hi" None 1000
            0.7%float (response_200 body_empty) body_empty _ _ _ _ _)
            body_empty (SStr "choices") _)).
  - vm_compute; reflexivity.
  - rewrite elem_of_providers; auto.
  - apply answers_mock.
  - reflexivity.
  - reflexivity.
  - vm_compute; reflexivity.
Defined.

Example chat_empty_body_claude :
  (chat_default client_full (mock (Ok (response_200 body_empty))) "claude" "hi").2
  = Raise (mkExc RuntimeError "Invalid claude response format: 'content'").
Proof. vm_compute; reflexivity. Qed.

Example chat_empty_body_gemini :
  (chat_default client_full (mock (Ok (response_200 body_empty))) "gemini" "hi").2
  = Raise (mkExc RuntimeError "Invalid gemini response format: 'candidates'").
Proof. vm_compute; reflexivity. Qed.

Example chat_empty_choices :
  (chat_default client_full
     (mock (Ok (response_200 (py_dict [("choices", PList [])])))) "openai" "hi").2
  = Raise (mkExc RuntimeError "Invalid openai response format: list index out of range").
Proof. vm_compute; reflexivity. Qed.

(** C9, as stated, fails: in [{"choices": {}}] the value of [choices] is
    an object, not an array, yet Python reports the subscript [0] as the
    missing key [0] ([KeyError]), which the extraction catches: the call
    fails with the malformed-response error, not with a type error. *)
Lemma wrong_type_reported_as_malformed :
  navigate (extraction_path "openai") body_choices_object
  = WrongType (py_dict []) (SInt 0)
  /\ (chat_default client_full (mock (Ok (response_200 body_choices_object)))
        "openai" "hi").2
     = Raise (mkExc RuntimeError "Invalid openai response format: 0")
  /\ kind_of_exc (mkExc RuntimeError "Invalid openai response format: 0")
     = Some MalformedResponseError.
Proof. repeat split; vm_compute; reflexivity. Qed.

(** C9, amended: when the transport answers with status 200 and a decoded
    body that has a value of the wrong type at a step of the provider's
    path, the call fails. If the value is an object met by an index, or a
    string too short for the index, Python reports a failed lookup and the
    call fails with the malformed-response error. For every other value
    (null, a boolean, a number, an array or a string met by a key, a longer
    string met by an index) a [TypeError] is raised that the extraction
    does not catch: the call fails with it, an error that is none of the
    four kinds. *)
Theorem chat_wrong_type_in_response (env : gmap string string)
    (self : UniversalAIClient) (net : Transport) (provider prompt : string)
    (model : option string) (max_tokens : Z) (temperature : float)
    (resp : Response) (data v : pyval) (s : Subscript) :
  (__init__ env).2 = Ok self ->
  provider ∈ providers ->
  answers net (chat self net provider prompt model max_tokens temperature) (Ok resp) ->
  resp_status resp = 200 ->
  resp_json resp = Ok data ->
  navigate (extraction_path provider) data = WrongType v s ->
  match reported_as_lookup v s with
  | Some failure =>
      (chat self net provider prompt model max_tokens temperature).2
      = Raise (mkExc RuntimeError
                 ("Invalid " +:+ provider +:+ " response format: " +:+ failure))
  | None =>
      exists e,
        (chat self net provider prompt model max_tokens temperature).2 = Raise e
        /\ exc_class e = TypeError
        /\ kind_of_exc e = None
  end.
Proof.
  intros Hinit Hp Hnet Hstatus Hjson Hnav.
  rewrite (chat_decoded env self net provider prompt model max_tokens
             temperature Hinit Hp resp Hnet data Hstatus Hjson).
  rewrite extract_response_walk by assumption.
  pose proof (navigate_wrong_type _ _ _ _ (extraction_path_shape provider) Hnav)
    as Hwalk.
  destruct (reported_as_lookup v s) as [failure |].
  - destruct Hwalk as (c & Hc & ->). rewrite Hc. reflexivity.
  - destruct Hwalk as (msg & ->). cbn. eauto.
Qed.

Lemma chat_wrong_type_in_response_witness :
  exists e,
    (chat_default client_full (mock (Ok (response_200 body_choices_null)))
       "openai" "hi").2 = Raise e
    /\ exc_class e = TypeError
    /\ kind_of_exc e = None.
Proof.
  apply (chat_wrong_type_in_response env_full client_full _ "openai" "hi" None
           1000 0.7%float (response_200 body_choices_null) body_choices_null
           PNone (SStr "message")).
  - vm_compute; reflexivity.
  - rewrite elem_of_providers; auto.
  - apply answers_mock.
  - reflexivity.
  - reflexivity.
  - vm_compute; reflexivity.
Defined.

Example chat_choices_not_array :
  (chat_default client_full
     (mock (Ok (response_200 (py_dict [("choices", PStr "none")])))) "openai" "hi").2
  = Raise (mkExc TypeError "string indices must be integers, not 'str'").
Proof. vm_compute; reflexivity. Qed.

Example chat_choices_empty_string :
  (chat_default client_full
     (mock (Ok (response_200 (py_dict [("choices", PStr "")])))) "openai" "hi").2
  = Raise (mkExc RuntimeError
             "Invalid openai response format: string index out of range").
Proof. vm_compute; reflexivity. Qed.

Example chat_body_is_array :
  (chat_default client_full (mock (Ok (response_200 (PList [])))) "claude" "hi").2
  = Raise (mkExc TypeError "list indices must be integers or slices, not str").
Proof. vm_compute; reflexivity. Qed.

(** ** Requests *)

Lemma py_or_coalesce (model : option string) (fallback : string) :
  model ≠ Some "" -> py_or model fallback = coalesce model fallback.
Proof.
  destruct model as [m |]; [| reflexivity]. intros Hm. cbn.
  rewrite decide_False by congruence. reflexivity.
Qed.

(** C4, as stated, fails: for the model [""] the openai payload carries
    ["gpt-4o"], where [model ?? "gpt-4o"] is the empty string. *)
Lemma payload_empty_model_differs :
  _build_payload "openai" "hi" (Some "") 1000 0.7%float
  ≠ Ok (spec_payload "openai" "hi" (Some "") 1000 0.7%float).
Proof.
  intros H. vm_compute in H. discriminate H.
Qed.

(** C4, amended: for every prompt, maxTokens and temperature, and every
    optional model other than the empty string, the payload built for each
    provider is the documented provider-native body, with maxTokens and
    temperature placed in it as passed; for the empty string the payload is
    the one built when no model is given. *)
Theorem build_payload_shape (provider prompt : string) (model : option string)
    (max_tokens : Z) (temperature : float) :
  provider ∈ providers ->
  (model ≠ Some "" ->
   _build_payload provider prompt model max_tokens temperature
   = Ok (spec_payload provider prompt model max_tokens temperature))
  /\ _build_payload provider prompt (Some "") max_tokens temperature
     = Ok (spec_payload provider prompt None max_tokens temperature).
Proof.
  intros Hp. apply elem_of_providers in Hp.
  split; [intros Hmodel |];
    destruct Hp as [-> | [-> | ->]];
    unfold _build_payload, spec_payload; provider_cases;
    rewrite ?py_or_coalesce by assumption; reflexivity.
Qed.

Lemma build_payload_shape_witness :
  _build_payload "openai" "hi" (Some "gpt-4o-mini") 100 0.5%float
  = Ok (py_dict [
      ("model", PStr "gpt-4o-mini");
      ("messages", PList [py_dict [("role", PStr "user"); ("content", PStr "hi")]]);
      ("max_tokens", PInt 100);
      ("temperature", PFloat 0.5%float)]).
Proof.
  apply (build_payload_shape "openai" "hi" (Some "gpt-4o-mini") 100 0.5%float).
  - rewrite elem_of_providers; auto.
  - discriminate.
Defined.

(** The request posted by a call, for a client that was constructed. *)
Lemma chat_request (env : gmap string string) (self : UniversalAIClient)
    (net : Transport) (provider prompt : string) (model : option string)
    (max_tokens : Z) (temperature : float) :
  (__init__ env).2 = Ok self ->
  provider ∈ providers ->
  exists cfg payload,
    dict_get (build_config (credential env "openai") (credential env "claude")
                (credential env "gemini")) provider = Some cfg
    /\ _build_payload provider prompt model max_tokens temperature = Ok payload
    /\ (chat self net provider prompt model max_tokens temperature).1
       = [SessionOpen;
          Post (mkRequest
                  (if decide (provider = "gemini")
                   then ProviderConfig.url cfg +:+ "?key=" +:+ ProviderConfig.key cfg
                   else ProviderConfig.url cfg)
                  (_build_headers provider cfg) payload 30);
          SessionClose].
Proof.
  intros Hinit Hp. apply init_ok_inv in Hinit as [-> _].
  destruct (config_lookup (credential env "openai") (credential env "claude")
              (credential env "gemini") provider Hp) as [cfg Hcfg].
  destruct (build_payload_ok provider prompt model max_tokens temperature Hp)
    as [payload Hpayload].
  exists cfg, payload. split; [assumption |]. split; [assumption |].
  rewrite (chat_unfold (mkClient _) net provider prompt model max_tokens
             temperature cfg payload Hcfg Hpayload).
  reflexivity.
Qed.

(** C10: the model override applies only to a truthy model. In a call
    with the empty string as model, the payload posted to openai or claude
    carries the provider's default model ("gpt-4o",
    "claude-3-5-sonnet-20241022"), as it does when no model is given; a
    non-empty model is carried as it is. *)
Theorem empty_model_uses_default (env : gmap string string)
    (self : UniversalAIClient) (net : Transport) (provider prompt : string)
    (max_tokens : Z) (temperature : float) :
  (__init__ env).2 = Ok self ->
  provider = "openai" \/ provider = "claude" ->
  forall model, exists req d,
    (chat self net provider prompt model max_tokens temperature).1
    = [SessionOpen; Post req; SessionClose]
    /\ _build_payload provider prompt model max_tokens temperature
       = Ok (req_json req)
    /\ req_json req = PDict d
    /\ d !! "model" =
         Some (PStr match model with
                    | Some "" | None => default_model provider
                    | Some m => m
                    end).
Proof.
  intros Hinit Hp model.
  assert (Hin : provider ∈ providers) by (rewrite elem_of_providers; tauto).
  destruct (chat_request env self net provider prompt model max_tokens
              temperature Hinit Hin) as (cfg & payload & _ & Hpayload & ->).
  destruct Hp as [-> | ->]; unfold _build_payload in Hpayload;
    revert Hpayload; provider_cases; intros [= <-];
    eexists _, _; (split; [reflexivity |]); cbn [req_json];
    (split; [reflexivity |]); (split; [reflexivity |]);
    destruct model as [[| c m] |]; reflexivity.
Qed.

Lemma empty_model_uses_default_witness :
  exists req d,
    (chat client_full (mock (Ok (response_200 body_openai))) "openai" "hi"
       (Some "") 1000 0.7%float).1 = [SessionOpen; Post req; SessionClose]
    /\ _build_payload "openai" "hi" (Some "") 1000 0.7%float = Ok (req_json req)
    /\ req_json req = PDict d
    /\ d !! "model" = Some (PStr "gpt-4o").
Proof.
  apply (empty_model_uses_default env_full client_full _ "openai" "hi" 1000
           0.7%float).
  - vm_compute; reflexivity.
  - left; reflexivity.
Defined.

(** C3: in every call the request posted for openai goes to the
    configured endpoint with the header [Authorization] set to "Bearer "
    followed by the openai credential; for claude to the configured
    endpoint with [x-api-key] set to the raw credential and
    [anthropic-version] set to "2023-06-01"; for gemini the headers hold
    [Content-Type] only and the credential is appended to the endpoint as
    the query "?key=<credential>". *)
Theorem chat_request_carries_credential (env : gmap string string)
    (self : UniversalAIClient) (net : Transport) (prompt : string)
    (model : option string) (max_tokens : Z) (temperature : float) :
  (__init__ env).2 = Ok self ->
  (exists payload,
     _build_payload "openai" prompt model max_tokens temperature = Ok payload
     /\ (chat self net "openai" prompt model max_tokens temperature).1
        = [SessionOpen;
           Post (mkRequest
                   "https://api.openai.com/v1/chat/completions"
                   (<[ "Authorization" := Some ("Bearer " +:+ credential env "openai") ]>
                      {[ "Content-Type" := Some "application/json" ]})
                   payload 30);
           SessionClose])
  /\ (exists payload,
        _build_payload "claude" prompt model max_tokens temperature = Ok payload
        /\ (chat self net "claude" prompt model max_tokens temperature).1
           = [SessionOpen;
              Post (mkRequest
                      "https://api.anthropic.com/v1/messages"
                      (<[ "anthropic-version" := Some "2023-06-01" ]>
                         (<[ "x-api-key" := Some (credential env "claude") ]>
                            {[ "Content-Type" := Some "application/json" ]}))
                      payload 30);
              SessionClose])
  /\ (exists payload,
        _build_payload "gemini" prompt model max_tokens temperature = Ok payload
        /\ (chat self net "gemini" prompt model max_tokens temperature).1
           = [SessionOpen;
              Post (mkRequest
                      ("https://generativelanguage.googleapis.com/v1beta/models/gemini-1.5-pro:generateContent"
                         +:+ "?key=" +:+ credential env "gemini")
                      {[ "Content-Type" := Some "application/json" ]}
                      payload 30);
              SessionClose]).
Proof.
  intros Hinit.
  assert (Hreq : forall p, p ∈ providers -> _) by
    exact (fun p => chat_request env self net p prompt model max_tokens
                      temperature Hinit).
  split; [| split].
  - destruct (Hreq "openai") as (cfg & payload & [= <-] & Hpayload & ->);
      [rewrite elem_of_providers; auto |].
    exists payload. split; [assumption | reflexivity].
  - destruct (Hreq "claude") as (cfg & payload & [= <-] & Hpayload & ->);
      [rewrite elem_of_providers; auto |].
    exists payload. split; [assumption | reflexivity].
  - destruct (Hreq "gemini") as (cfg & payload & [= <-] & Hpayload & ->);
      [rewrite elem_of_providers; auto |].
    exists payload. split; [assumption | reflexivity].
Qed.

Lemma chat_request_carries_credential_witness :
  exists payload,
    _build_payload "gemini" "hi" None 1000 0.7%float = Ok payload
    /\ (chat_default client_full (mock (Ok (response_200 body_gemini))) "gemini" "hi").1
       = [SessionOpen;
          Post (mkRequest
                  "https://generativelanguage.googleapis.com/v1beta/models/gemini-1.5-pro:generateContent?key=g-k"
                  {[ "Content-Type" := Some "application/json" ]}
                  payload 30);
          SessionClose].
Proof.
  apply (chat_request_carries_credential env_full client_full
           (mock (Ok (response_200 body_gemini))) "hi" None 1000 0.7%float).
  vm_compute; reflexivity.
Defined.

(** ** Errors *)

Lemma getitem_raises (v : pyval) (s : Subscript) (e : Exc) :
  getitem v s = Raise e ->
  exc_class e = KeyError \/ exc_class e = IndexError \/ exc_class e = TypeError.
Proof.
  destruct v, s; cbn;
    repeat match goal with
           | |- context [match ?x with _ => _ end] => destruct x
           end;
    intros [= <-]; auto.
Qed.

Lemma walk_raises (path : list Subscript) :
  forall v e,
    walk path v = Raise e ->
    exc_class e = KeyError \/ exc_class e = IndexError \/ exc_class e = TypeError.
Proof.
  induction path as [| s rest IH]; intros v e; cbn; [discriminate |].
  destruct (getitem v s) as [x | e'] eqn:Hget; cbn.
  - apply IH.
  - intros [= <-]. eapply getitem_raises; eassumption.
Qed.

(** The extraction never raises the API error. *)
Lemma extract_not_api_error (provider : string) (data : pyval) (e : Exc) :
  provider ∈ providers ->
  _extract_response provider data = Raise e ->
  kind_of_exc e ≠ Some ApiError.
Proof.
  intros Hp. rewrite extract_response_walk by assumption.
  destruct (walk (extraction_path provider) data) as [x | e0] eqn:Hwalk;
    [discriminate |].
  apply walk_raises in Hwalk.
  unfold is_lookup_error.
  destruct e0 as [c msg]; cbn in *.
  destruct Hwalk as [-> | [-> | ->]]; intros [= <-]; discriminate.
Qed.

(** The API error comes from the status check only, as long as the
    transport does not itself raise an exception that reads as one. *)
Lemma chat_api_error_inv (env : gmap string string) (self : UniversalAIClient)
    (net : Transport) (provider prompt : string) (model : option string)
    (max_tokens : Z) (temperature : float) (outcome : Result Response) (e : Exc) :
  (__init__ env).2 = Ok self ->
  provider ∈ providers ->
  answers net (chat self net provider prompt model max_tokens temperature) outcome ->
  (forall e', raised_by_transport outcome e' -> kind_of_exc e' ≠ Some ApiError) ->
  (chat self net provider prompt model max_tokens temperature).2 = Raise e ->
  kind_of_exc e = Some ApiError ->
  exists resp text,
    outcome = Ok resp /\ resp_status resp ≠ 200 /\ resp_text resp = Ok text.
Proof.
  intros Hinit Hp Hnet Hforeign Hraise Hkind.
  rewrite (chat_answered env self net provider prompt model max_tokens
             temperature outcome Hinit Hp Hnet) in Hraise.
  destruct outcome as [resp | e']; cbn in Hraise.
  - unfold chat_response in Hraise. case_decide as Hstatus.
    + destruct (resp_text resp) as [text | e'] eqn:Htext; cbn in Hraise.
      * eauto.
      * injection Hraise as ->. exfalso.
        apply (Hforeign e); [left; assumption | assumption].
    + destruct (resp_json resp) as [data | e'] eqn:Hjson; cbn in Hraise.
      * exfalso. eapply extract_not_api_error; eassumption.
      * injection Hraise as ->. exfalso.
        apply (Hforeign e); [right; assumption | assumption].
  - injection Hraise as ->. exfalso.
    apply (Hforeign e); [reflexivity | assumption].
Qed.

(** C2, as stated, fails: a body that does not decode as JSON, and a
    timeout of the transport, do not give the API error; the exception of
    the transport reaches the caller as it is. *)
Lemma transport_failure_is_not_api_error :
  (chat_default client_full (mock (Ok response_not_json)) "openai" "hi").2
  = Raise (mkExc JSONDecodeError "Expecting value: line 1 column 1 (char 0)")
  /\ kind_of_exc (mkExc JSONDecodeError "Expecting value: line 1 column 1 (char 0)")
     = None
  /\ (chat_default client_full (mock (Raise (mkExc TimeoutError ""))) "openai" "hi").2
     = Raise (mkExc TimeoutError "")
  /\ kind_of_exc (mkExc TimeoutError "") = None.
Proof. repeat split; vm_compute; reflexivity. Qed.

(** C2, amended: a call for a supported provider posts exactly one
    request, whatever the outcome (nothing is retried). A response with a
    status other than 200 whose body text is read gives the API error
    ([RuntimeError], "<provider> API error: HTTP <status> - <body text>").
    A failure of the transport itself (timeout, connection failure), a body
    that fails to decode as JSON, and a body text that cannot be read are
    not turned into the API error: the call fails with the very exception
    the transport raised. Unless such an exception itself reads as the API
    error, the call fails with the API error only in the first case. *)
Theorem chat_transport_outcomes (env : gmap string string)
    (self : UniversalAIClient) (net : Transport) (provider prompt : string)
    (model : option string) (max_tokens : Z) (temperature : float)
    (outcome : Result Response) :
  (__init__ env).2 = Ok self ->
  provider ∈ providers ->
  answers net (chat self net provider prompt model max_tokens temperature) outcome ->
  (exists req,
     (chat self net provider prompt model max_tokens temperature).1
     = [SessionOpen; Post req; SessionClose])
  /\ (forall resp text,
        outcome = Ok resp -> resp_status resp ≠ 200 -> resp_text resp = Ok text ->
        let e := mkExc RuntimeError
                   (provider +:+ " API error: HTTP " +:+ pretty (resp_status resp)
                      +:+ " - " +:+ text) in
        (chat self net provider prompt model max_tokens temperature).2 = Raise e
        /\ kind_of_exc e = Some ApiError)
  /\ (forall e,
        outcome = Raise e ->
        (chat self net provider prompt model max_tokens temperature).2 = Raise e)
  /\ (forall resp e,
        outcome = Ok resp -> resp_status resp = 200 -> resp_json resp = Raise e ->
        (chat self net provider prompt model max_tokens temperature).2 = Raise e)
  /\ (forall resp e,
        outcome = Ok resp -> resp_status resp ≠ 200 -> resp_text resp = Raise e ->
        (chat self net provider prompt model max_tokens temperature).2 = Raise e)
  /\ ((forall e, raised_by_transport outcome e -> kind_of_exc e ≠ Some ApiError) ->
      forall e,
        (chat self net provider prompt model max_tokens temperature).2 = Raise e ->
        kind_of_exc e = Some ApiError ->
        exists resp text,
          outcome = Ok resp /\ resp_status resp ≠ 200 /\ resp_text resp = Ok text).
Proof.
  intros Hinit Hp Hnet. split; [| split; [| split; [| split; [| split]]]].
  - destruct (chat_request env self net provider prompt model max_tokens
                temperature Hinit Hp) as (cfg & payload & _ & _ & ->).
    eexists; reflexivity.
  - intros resp text -> Hstatus Htext. split.
    + eapply chat_status_error; eassumption.
    + apply kind_of_api_error; assumption.
  - intros e ->. eapply chat_transport_raises; eassumption.
  - intros resp e -> Hstatus Hjson. eapply chat_json_raises; eassumption.
  - intros resp e -> Hstatus Htext. eapply chat_text_raises; eassumption.
  - intros Hforeign e Hraise Hkind. eapply chat_api_error_inv; eassumption.
Qed.

Lemma chat_transport_outcomes_witness :
  (chat_default client_full (mock (Ok response_500)) "gemini" "hi").2
  = Raise (mkExc RuntimeError "gemini API error: HTTP 500 - server error").
Proof.
  refine (proj1 (proj1 (proj2 (chat_transport_outcomes env_full client_full
            (mock (Ok response_500)) "gemini" "hi" None 1000 0.7%float
            (Ok response_500) _ _ _)) response_500 "server error" _ _ _)).
  - vm_compute; reflexivity.
  - rewrite elem_of_providers; auto.
  - apply answers_mock.
  - reflexivity.
  - vm_compute; discriminate.
  - reflexivity.
Defined.


(** The class of the exception alone does not tell the kind: a missing
    credential and an unsupported provider both raise [ValueError], a
    status other than 200 and a missing field both raise [RuntimeError].
    What tells the kind is the exception as a whole, class and message
    (see [fails_kind]). *)
Lemma error_kinds_share_classes :
  Fails ConfigurationError (mkExc ValueError "Missing API key for claude")
  /\ Fails UnknownProviderError (mkExc ValueError "Unknown provider: unknown")
  /\ Fails ApiError (mkExc RuntimeError "openai API error: HTTP 500 - server error")
  /\ Fails MalformedResponseError
       (mkExc RuntimeError "Invalid openai response format: 'choices'")
  /\ ~ (exists tell : ExcClass -> ErrorKind,
          forall k e, Fails k e -> tell (exc_class e) = k).
Proof.
  assert (Hfull : (__init__ env_full).2 = Ok client_full)
    by (vm_compute; reflexivity).
  assert (Hopenai : "openai" ∈ providers) by (rewrite elem_of_providers; auto).
  assert (Hconfig : Fails ConfigurationError
                      (mkExc ValueError "Missing API key for claude")).
  { apply (Fails_configuration env_no_claude). vm_compute; reflexivity. }
  assert (Hunknown : Fails UnknownProviderError
                       (mkExc ValueError "Unknown provider: unknown")).
  { apply (Fails_unknown_provider env_full client_full
             (mock (Ok response_500)) "unknown" "hi" None 1000 0.7%float);
      [exact Hfull | | vm_compute; reflexivity].
    rewrite elem_of_providers. intros [H | [H | H]]; discriminate H. }
  repeat split; try assumption.
  - apply (Fails_api env_full client_full (mock (Ok response_500)) "openai" "hi"
             None 1000 0.7%float response_500 "server error");
      [exact Hfull | exact Hopenai | apply answers_mock | vm_compute; discriminate
      | reflexivity | vm_compute; reflexivity].
  - apply (Fails_malformed env_full client_full
             (mock (Ok (response_200 body_empty))) "openai" "hi" None 1000
             0.7%float (response_200 body_empty) body_empty body_empty
             (SStr "choices"));
      [exact Hfull | exact Hopenai | apply answers_mock | reflexivity
      | reflexivity | vm_compute; reflexivity | vm_compute; reflexivity].
  - intros [tell Htell].
    pose proof (Htell _ _ Hconfig) as H1. pose proof (Htell _ _ Hunknown) as H2.
    cbn in H1, H2. congruence.
Qed.



(** ** Validation of any configuration *)

Lemma validate_items_ok (items : list (string * ProviderConfig)) :
  validate_items items = Ok tt
  <-> Forall (fun it => ProviderConfig.key it.2 ≠ "") items.
Proof.
  induction items as [| [p cfg] rest IH]; cbn.
  - split; [constructor | reflexivity].
  - case_decide as Hkey.
    + split; [discriminate |]. intros H. inversion H; subst. contradiction.
    + rewrite IH. split; [intros H; constructor; assumption |].
      intros H. inversion H; subst. assumption.
Qed.

Lemma validate_items_raise (items : list (string * ProviderConfig)) (e : Exc) :
  validate_items items = Raise e ->
  exists pre p cfg post,
    items = pre ++ (p, cfg) :: post
    /\ Forall (fun it => ProviderConfig.key it.2 ≠ "") pre
    /\ ProviderConfig.key cfg = ""
    /\ e = mkExc ValueError ("Missing API key for " +:+ p).
Proof.
  induction items as [| [p cfg] rest IH]; cbn; [discriminate |].
  case_decide as Hkey.
  - intros [= <-]. exists [], p, cfg, rest. repeat split; [constructor | assumption].
  - intros Hrest. destruct (IH Hrest) as (pre & q & c & post & -> & Hpre & Hc & ->).
    exists ((p, cfg) :: pre), q, c, post.
    repeat split; [constructor; assumption | assumption].
Qed.

(** X1: whatever [self.config] holds, [_validate_config] passes exactly when
    every entry has a non-empty key, and otherwise raises the
    [ValueError] that names the first entry, in the order of the dict,
    whose key is empty. *)
Theorem validate_config_first_empty_key (self : UniversalAIClient) :
  (_validate_config self = Ok tt
   <-> Forall (fun it => ProviderConfig.key it.2 ≠ "") (config self))
  /\ (forall e,
        _validate_config self = Raise e ->
        exists pre p cfg post,
          config self = pre ++ (p, cfg) :: post
          /\ Forall (fun it => ProviderConfig.key it.2 ≠ "") pre
          /\ ProviderConfig.key cfg = ""
          /\ e = mkExc ValueError ("Missing API key for " +:+ p)).
Proof.
  unfold _validate_config. split.
  - apply validate_items_ok.
  - intros e. apply validate_items_raise.
Qed.

Lemma validate_config_first_empty_key_witness :
  exists pre p cfg post,
    build_config "sk-o" "" "" = pre ++ (p, cfg) :: post
    /\ Forall (fun it => ProviderConfig.key it.2 ≠ "") pre
    /\ ProviderConfig.key cfg = ""
    /\ mkExc ValueError "Missing API key for claude"
       = mkExc ValueError ("Missing API key for " +:+ p).
Proof.
  apply (proj2 (validate_config_first_empty_key
                  (mkClient (build_config "sk-o" "" "")))).
  vm_compute; reflexivity.
Defined.

(** ** The constructed client *)

(** X2: construction reads nothing but the three credentials: two
    environments that agree on them, an unset variable counting as an
    empty one, give the same events and the same outcome. *)
Theorem init_depends_on_credentials_only (env1 env2 : gmap string string) :
  (forall p, p ∈ providers -> credential env1 p = credential env2 p) ->
  __init__ env1 = __init__ env2.
Proof.
  intros Hsame.
  assert (H1 : credential env1 "openai" = credential env2 "openai")
    by (apply Hsame; rewrite elem_of_providers; auto).
  assert (H2 : credential env1 "claude" = credential env2 "claude")
    by (apply Hsame; rewrite elem_of_providers; auto).
  assert (H3 : credential env1 "gemini" = credential env2 "gemini")
    by (apply Hsame; rewrite elem_of_providers; auto).
  rewrite (surjective_pairing (__init__ env1)), (surjective_pairing (__init__ env2)).
  rewrite !init_trace, !init_result, H1, H2, H3. reflexivity.
Qed.

Lemma init_depends_on_credentials_only_witness :
  __init__ (<[ "ANTHROPIC_API_KEY" := "" ]> (<[ "HOME" := "/root" ]> env_no_claude))
  = __init__ env_no_claude.
Proof.
  apply init_depends_on_credentials_only.
  intros p Hp. apply elem_of_providers in Hp.
  destruct Hp as [-> | [-> | ->]]; vm_compute; reflexivity.
Defined.

(** X3: a client that was constructed holds exactly the three supported
    providers, each with the non-empty credential of its environment
    variable and an [https] endpoint, and validating it again succeeds. *)
Theorem init_client_invariant (env : gmap string string) (self : UniversalAIClient) :
  (__init__ env).2 = Ok self ->
  (forall p, is_Some (dict_get (config self) p) <-> p ∈ providers)
  /\ (forall p cfg,
        dict_get (config self) p = Some cfg ->
        ProviderConfig.key cfg = credential env p
        /\ ProviderConfig.key cfg ≠ ""
        /\ starts_with "https://" (ProviderConfig.url cfg) = true)
  /\ _validate_config self = Ok tt.
Proof.
  intros Hinit. apply init_ok_inv in Hinit as (-> & H1 & H2 & H3).
  split; [| split].
  - intros p. split.
    + intros [cfg Hcfg]. destruct (decide (p ∈ providers)) as [| Hn]; [assumption |].
      cbn [config] in Hcfg. rewrite config_lookup_none in Hcfg by assumption.
      discriminate.
    + intros Hp. cbn [config].
      destruct (config_lookup (credential env "openai") (credential env "claude")
                  (credential env "gemini") p Hp) as [cfg ->].
      eauto.
  - intros p cfg. cbn [config]. unfold build_config. cbn [dict_get].
    repeat case_decide; subst; intros [= <-]; cbn; auto.
  - unfold _validate_config. cbn.
    rewrite !decide_False by assumption. reflexivity.
Qed.

Lemma init_client_invariant_witness :
  _validate_config client_full = Ok tt.
Proof.
  apply (init_client_invariant env_full client_full).
  vm_compute; reflexivity.
Defined.

(** ** Calls on any client *)

Lemma build_payload_unknown (provider prompt : string) (model : option string)
    (max_tokens : Z) (temperature : float) :
  provider ∉ providers ->
  _build_payload provider prompt model max_tokens temperature
  = Raise (mkExc ValueError ("Unknown provider: " +:+ provider)).
Proof.
  rewrite elem_of_providers. intros Hp. unfold _build_payload.
  repeat (case_decide; [tauto |]). reflexivity.
Qed.

(** X4: whatever [self.config] holds, a call does one of three things. For a
    provider that is not configured it fails at once, with no event. For a
    provider that is configured but is none of openai, claude and gemini it
    opens a session, fails in the payload builder with the [ValueError]
    "Unknown provider: <provider>", and closes the session without posting.
    Otherwise it opens a session, posts one request and closes the session,
    however the request ends. *)
Theorem chat_session_discipline (self : UniversalAIClient) (net : Transport)
    (provider prompt : string) (model : option string) (max_tokens : Z)
    (temperature : float) :
  match dict_get (config self) provider with
  | None =>
      chat self net provider prompt model max_tokens temperature
      = ([], Raise (mkExc ValueError ("Unknown provider: " +:+ provider)))
  | Some cfg =>
      if decide (provider ∈ providers) then
        exists req,
          chat self net provider prompt model max_tokens temperature
          = ([SessionOpen; Post req; SessionClose],
             rbind (net req) (chat_response provider))
      else
        chat self net provider prompt model max_tokens temperature
        = ([SessionOpen; SessionClose],
           Raise (mkExc ValueError ("Unknown provider: " +:+ provider)))
  end.
Proof.
  destruct (dict_get (config self) provider) as [cfg |] eqn:Hcfg.
  - case_decide as Hp.
    + destruct (build_payload_ok provider prompt model max_tokens temperature Hp)
        as [payload Hpayload].
      eexists. apply chat_unfold; eassumption.
    + unfold chat. rewrite Hcfg, build_payload_unknown by assumption. reflexivity.
  - unfold chat. rewrite Hcfg. reflexivity.
Qed.

(** X5: once the transport has answered, the outcome of a call to a
    supported provider is decided by the provider and the answer: two
    calls to the same provider that get the same answer end the same way,
    whatever the credentials, prompts, models, token limits and
    temperatures. The answer itself may depend on the request, which for
    gemini carries the credential. *)
Theorem chat_outcome_from_transport_only
    (env1 env2 : gmap string string) (self1 self2 : UniversalAIClient)
    (net1 net2 : Transport) (provider prompt1 prompt2 : string)
    (model1 model2 : option string) (max_tokens1 max_tokens2 : Z)
    (temperature1 temperature2 : float) (outcome : Result Response) :
  (__init__ env1).2 = Ok self1 ->
  (__init__ env2).2 = Ok self2 ->
  provider ∈ providers ->
  answers net1 (chat self1 net1 provider prompt1 model1 max_tokens1 temperature1)
    outcome ->
  answers net2 (chat self2 net2 provider prompt2 model2 max_tokens2 temperature2)
    outcome ->
  (chat self1 net1 provider prompt1 model1 max_tokens1 temperature1).2
  = (chat self2 net2 provider prompt2 model2 max_tokens2 temperature2).2.
Proof.
  intros Hinit1 Hinit2 Hp Hnet1 Hnet2.
  rewrite (chat_answered env1 self1 net1 provider prompt1 model1 max_tokens1
             temperature1 outcome Hinit1 Hp Hnet1).
  rewrite (chat_answered env2 self2 net2 provider prompt2 model2 max_tokens2
             temperature2 outcome Hinit2 Hp Hnet2).
  reflexivity.
Qed.

Lemma chat_outcome_from_transport_only_witness :
  (chat client_full (mock (Ok response_500)) "gemini" "hi" None 1000 0.7%float).2
  = (chat (mkClient (build_config "a" "b" "c")) (mock (Ok response_500)) "gemini"
       "What is prompt injection?" (Some "gemini-pro") 5 0.1%float).2.
Proof.
  apply (chat_outcome_from_transport_only env_full
           {[ "OPENAI_API_KEY" := "a"; "ANTHROPIC_API_KEY" := "b";
              "GOOGLE_API_KEY" := "c" ]}
           client_full (mkClient (build_config "a" "b" "c")) _ _ "gemini" _ _ _ _
           _ _ _ _ (Ok response_500)).
  - vm_compute; reflexivity.
  - vm_compute; reflexivity.
  - rewrite elem_of_providers; auto.
  - apply answers_mock.
  - apply answers_mock.
Defined.

(** X6: the model override has no effect on gemini: with any client, any two
    models give the same request and the same outcome. *)
Theorem chat_gemini_ignores_model (self : UniversalAIClient) (net : Transport)
    (prompt : string) (model1 model2 : option string) (max_tokens : Z)
    (temperature : float) :
  chat self net "gemini" prompt model1 max_tokens temperature
  = chat self net "gemini" prompt model2 max_tokens temperature.
Proof. reflexivity. Qed.

(** X7: every request of a constructed client goes to an [https] URL, with
    the timeout 30 and the JSON content type, and carries the payload built
    for the call. *)
Theorem chat_request_is_https_json (env : gmap string string)
    (self : UniversalAIClient) (net : Transport) (provider prompt : string)
    (model : option string) (max_tokens : Z) (temperature : float)
    (req : Request) :
  (__init__ env).2 = Ok self ->
  Post req ∈ (chat self net provider prompt model max_tokens temperature).1 ->
  provider ∈ providers
  /\ starts_with "https://" (req_url req) = true
  /\ req_timeout req = 30
  /\ req_headers req !! "Content-Type" = Some (Some "application/json")
  /\ _build_payload provider prompt model max_tokens temperature
     = Ok (req_json req).
Proof.
  intros Hinit Hpost.
  destruct (decide (provider ∈ providers)) as [Hp | Hp].
  - split; [assumption |].
    destruct (chat_request env self net provider prompt model max_tokens
                temperature Hinit Hp) as (cfg & payload & Hcfg & Hpayload & Htrace).
    rewrite Htrace in Hpost.
    rewrite !elem_of_cons, elem_of_nil in Hpost.
    destruct Hpost as [H | [H | [H | []]]]; try discriminate H.
    injection H as ->. cbn [req_url req_timeout req_headers req_json].
    apply elem_of_providers in Hp.
    destruct Hp as [-> | [-> | ->]]; injection Hcfg as <-;
      repeat split; try reflexivity; assumption.
  - rewrite (chat_unknown env self net provider prompt model max_tokens
               temperature Hinit Hp) in Hpost.
    cbn in Hpost. apply elem_of_nil in Hpost. contradiction.
Qed.

Lemma chat_request_is_https_json_witness :
  exists req,
    Post req ∈ (chat_default client_full (mock (Ok response_500)) "claude" "hi").1
    /\ starts_with "https://" (req_url req) = true.
Proof.
  assert (Hpost : exists req,
            Post req ∈ (chat_default client_full (mock (Ok response_500))
                          "claude" "hi").1).
  { eexists. apply list_elem_of_In. right. left. reflexivity. }
  destruct Hpost as [req Hpost]. exists req. split; [assumption |].
  refine (proj1 (proj2 (chat_request_is_https_json env_full client_full
            (mock (Ok response_500)) "claude" "hi" None 1000 0.7%float req _ _))).
  - vm_compute; reflexivity.
  - exact Hpost.
Defined.

(** ** Extraction on any document *)

Lemma walk_ok_navigate (path : list Subscript) (v x : pyval) :
  index_then_key path = true ->
  walk path v = Ok x ->
  navigate path v = Found x.
Proof.
  intros Hshape Hwalk.
  destruct (navigate path v) as [y | u s | u s] eqn:Hnav.
  - apply navigate_found in Hnav. congruence.
  - apply navigate_missing in Hnav. congruence.
  - pose proof (navigate_wrong_type _ _ _ _ Hshape Hnav) as H.
    destruct (reported_as_lookup u s).
    + destruct H as (c & _ & H). congruence.
    + destruct H as (msg & H). congruence.
Qed.

(** For a supported provider the extraction returns a value exactly when
    the provider's path leads to it through objects and arrays; it never
    returns a character picked out of a string. *)
Lemma extract_ok_iff (provider : string) (data v : pyval) :
  provider ∈ providers ->
  _extract_response provider data = Ok v
  <-> navigate (extraction_path provider) data = Found v.
Proof.
  intros Hp. rewrite extract_response_walk by assumption. split.
  - destruct (walk (extraction_path provider) data) as [x | e] eqn:Hwalk.
    + intros [= <-].
      apply walk_ok_navigate; [apply extraction_path_shape | assumption].
    + destruct (is_lookup_error e); discriminate.
  - intros Hnav. rewrite (navigate_found _ _ _ Hnav). reflexivity.
Qed.

(** X8: a call to a supported provider returns a value only in one way: the
    transport answered with status 200 exactly, the body decoded as JSON,
    and the provider's path leads to that value. Any other status, 201 and
    204 included, is a failure. *)
Theorem chat_succeeds_iff (env : gmap string string) (self : UniversalAIClient)
    (net : Transport) (provider prompt : string) (model : option string)
    (max_tokens : Z) (temperature : float) (outcome : Result Response)
    (v : pyval) :
  (__init__ env).2 = Ok self ->
  provider ∈ providers ->
  answers net (chat self net provider prompt model max_tokens temperature) outcome ->
  (chat self net provider prompt model max_tokens temperature).2 = Ok v
  <-> exists resp data,
        outcome = Ok resp
        /\ resp_status resp = 200
        /\ resp_json resp = Ok data
        /\ navigate (extraction_path provider) data = Found v.
Proof.
  intros Hinit Hp Hnet.
  rewrite (chat_answered env self net provider prompt model max_tokens
             temperature outcome Hinit Hp Hnet).
  split.
  - destruct outcome as [resp | e]; cbn; [| discriminate].
    unfold chat_response. case_decide as Hstatus.
    + destruct (resp_text resp); discriminate.
    + destruct (resp_json resp) as [data | e] eqn:Hjson; cbn; [| discriminate].
      intros Hextract. exists resp, data.
      split; [reflexivity |]. split; [assumption |]. split; [assumption |].
      apply extract_ok_iff; assumption.
  - intros (resp & data & -> & Hstatus & Hjson & Hnav). cbn.
    unfold chat_response.
    rewrite decide_False by (intros H; apply H, Hstatus).
    rewrite Hjson. cbn. apply extract_ok_iff; assumption.
Qed.

Lemma chat_succeeds_iff_witness :
  exists resp data,
    Ok (response_200 body_claude) = Ok resp
    /\ resp_status resp = 200
    /\ resp_json resp = Ok data
    /\ navigate (extraction_path "claude") data = Found (PStr "hi there").
Proof.
  apply (chat_succeeds_iff env_full client_full
           (mock (Ok (response_200 body_claude))) "claude" "hi" None 1000
           0.7%float (Ok (response_200 body_claude)) (PStr "hi there")).
  - vm_compute; reflexivity.
  - rewrite elem_of_providers; auto.
  - apply answers_mock.
  - vm_compute; reflexivity.
Defined.



Lemma getitem_list_head (x : pyval) (l : list pyval) :
  getitem (PList (x :: l)) (SInt 0) = Ok x.
Proof.
  unfold getitem, seq_index. cbn [length].
  destruct (decide (0 < 0)) as [H | _]; [lia |].
  destruct (decide (0 <= 0 < Z.of_nat (S (length l)))) as [_ | H]; [| lia].
  reflexivity.
Qed.

Lemma walk_other_key (path rest : list Subscript) (d : gmap string pyval)
    (k k1 : string) (x : pyval) :
  path = SStr k1 :: rest ->
  path !! 0%nat ≠ Some (SStr k) ->
  walk path (PDict (<[ k := x ]> d)) = walk path (PDict d).
Proof.
  intros -> Hk. cbn [walk getitem].
  rewrite lookup_insert_ne; [reflexivity |].
  intros ->. apply Hk. reflexivity.
Qed.

Lemma walk_key_index (d : gmap string pyval) (k : string) (x : pyval)
    (l : list pyval) (rest : list Subscript) :
  d !! k = Some (PList (x :: l)) ->
  walk (SStr k :: SInt 0 :: rest) (PDict d) = walk rest x.
Proof.
  intros Hd.
  change (walk (SStr k :: SInt 0 :: rest) (PDict d))
    with (rbind (getitem (PDict d) (SStr k))
            (fun y => rbind (getitem y (SInt 0)) (walk rest))).
  cbn [getitem]. rewrite Hd. cbn [rbind].
  rewrite getitem_list_head. reflexivity.
Qed.

(** X10: the extraction reads the provider's path and nothing else: a field of
    the reply other than the first key of the path can be added or changed
    without effect, and so can every element after the first of the array
    under that key. *)
Theorem extract_reads_path_only (provider : string) (d : gmap string pyval) :
  provider ∈ providers ->
  (forall k x,
     extraction_path provider !! 0%nat ≠ Some (SStr k) ->
     _extract_response provider (PDict (<[ k := x ]> d))
     = _extract_response provider (PDict d))
  /\ (forall k x l,
        extraction_path provider !! 0%nat = Some (SStr k) ->
        d !! k = Some (PList (x :: l)) ->
        _extract_response provider (PDict d)
        = _extract_response provider (PDict (<[ k := PList [x] ]> d))).
Proof.
  intros Hp. apply elem_of_providers in Hp as Hcases. split.
  - intros k x Hk. rewrite !extract_response_walk by assumption.
    destruct Hcases as [-> | [-> | ->]];
      rewrite (walk_other_key _ _ _ _ _ _ eq_refl Hk); reflexivity.
  - intros k x l Hk Hd. rewrite !extract_response_walk by assumption.
    destruct Hcases as [-> | [-> | ->]]; injection Hk as <-.
    + change (extraction_path "openai")
        with [SStr "choices"; SInt 0; SStr "message"; SStr "content"].
      rewrite (walk_key_index _ _ x l _ Hd),
        (walk_key_index _ _ x [] _ (lookup_insert_eq _ _ _)).
      reflexivity.
    + change (extraction_path "claude") with [SStr "content"; SInt 0; SStr "text"].
      rewrite (walk_key_index _ _ x l _ Hd),
        (walk_key_index _ _ x [] _ (lookup_insert_eq _ _ _)).
      reflexivity.
    + change (extraction_path "gemini")
        with [SStr "candidates"; SInt 0; SStr "content"; SStr "parts"; SInt 0;
              SStr "text"].
      rewrite (walk_key_index _ _ x l _ Hd),
        (walk_key_index _ _ x [] _ (lookup_insert_eq _ _ _)).
      reflexivity.
Qed.

Lemma extract_reads_path_only_witness :
  _extract_response "openai" (PDict (<[ "usage" := PInt 7 ]> ∅))
  = _extract_response "openai" (PDict ∅).
Proof.
  refine (proj1 (extract_reads_path_only "openai" ∅ _) "usage" (PInt 7) _).
  - rewrite elem_of_providers; auto.
  - discriminate.
Defined.

(** ** The usage example *)

(** The end of a run whose call raised an exception of class [c]: by cases
    on the class and its ancestry. *)
Ltac solve_main_except c :=
  destruct c as [| | | | | | | | | name [] [] []];
  cbn; rewrite <- ?app_assoc, ?app_nil_r; reflexivity.


(** A run of [main] with a client that is constructed: the three calls in
    order, each posting one request, up to the first that fails. *)
Lemma main_unfold (env : gmap string string) (self : UniversalAIClient)
    (net : Transport) :
  (__init__ env).2 = Ok self ->
  exists r1 r2 r3,
    (call_openai self net).1 = [SessionOpen; Post r1; SessionClose]
    /\ (call_claude self net).1 = [SessionOpen; Post r2; SessionClose]
    /\ (call_gemini self net).1 = [SessionOpen; Post r3; SessionClose]
    /\ main env net =
       let end3 : Script unit :=
         match (call_gemini self net).2 with
         | Raise e => main_except e
         | Ok v3 => ([Print [Lit "Gemini: "; Fmt v3; Lit nl]], Ok tt)
         end in
       let end2 : Script unit :=
         match (call_claude self net).2 with
         | Raise e => main_except e
         | Ok v2 =>
             ([Print [Lit "Claude: "; Fmt v2; Lit nl];
               Print [Lit "Requesting from Gemini..."];
               Effect SessionOpen; Effect (Post r3); Effect SessionClose]
              ++ end3.1, end3.2)
         end in
       let end1 : Script unit :=
         match (call_openai self net).2 with
         | Raise e => main_except e
         | Ok v1 =>
             ([Print [Lit "OpenAI: "; Fmt v1; Lit nl];
               Print [Lit "Requesting from Claude..."];
               Effect SessionOpen; Effect (Post r2); Effect SessionClose]
              ++ end2.1, end2.2)
         end in
       ((Effect <$> (__init__ env).1)
        ++ [Print [Lit "Requesting from OpenAI..."];
            Effect SessionOpen; Effect (Post r1); Effect SessionClose]
        ++ end1.1, end1.2).
Proof.
  intros Hinit.
  assert (Hp : forall p, p = "openai" \/ p = "claude" \/ p = "gemini" -> p ∈ providers)
    by (intros p; apply elem_of_providers).
  destruct (chat_supported env self "openai" "Explain AI security in one sentence"
              None 1000 0.7%float Hinit (Hp _ (or_introl eq_refl))) as [r1 H1].
  destruct (chat_supported env self "claude" "Write a haiku about cybersecurity"
              None 100 0.7%float Hinit (Hp _ (or_intror (or_introl eq_refl))))
    as [r2 H2].
  destruct (chat_supported env self "gemini" "What is prompt injection?"
              None 1000 0.7%float Hinit (Hp _ (or_intror (or_intror eq_refl))))
    as [r3 H3].
  exists r1, r2, r3. unfold call_openai, call_claude, call_gemini.
  rewrite !H1, !H2, !H3. cbn [fst snd].
  repeat (split; [reflexivity |]).
  unfold main, main_try, call_openai, call_claude, call_gemini, run.
  rewrite (surjective_pairing (__init__ env)), Hinit.
  cbn [fst snd sbind print]. rewrite !H1. cbn [fst snd sbind print].
  destruct (rbind (net r1) (chat_response "openai")) as [v1 | [c1 m1]];
    [| solve_main_except c1].
  cbn [fst snd sbind print]. rewrite !H2. cbn [fst snd sbind print].
  destruct (rbind (net r2) (chat_response "claude")) as [v2 | [c2 m2]];
    [| solve_main_except c2].
  cbn [fst snd sbind print]. rewrite !H3. cbn [fst snd sbind print].
  destruct (rbind (net r3) (chat_response "gemini")) as [v3 | [c3 m3]];
    [| solve_main_except c3].
  cbn. rewrite <- ?app_assoc. reflexivity.
Qed.

(** X11: when a credential is missing, [main] reads the three variables,
    prints the one line "Configuration error: Missing API key for
    <provider>" and ends normally: no session is opened, no request is
    posted and none of the "Requesting from ..." lines is printed. *)
Theorem main_missing_credential (env : gmap string string) (net : Transport)
    (e : Exc) :
  (__init__ env).2 = Raise e ->
  main env net =
    ([Effect (GetEnv "OPENAI_API_KEY"); Effect (GetEnv "ANTHROPIC_API_KEY");
      Effect (GetEnv "GOOGLE_API_KEY");
      Print [Lit ("Configuration error: " +:+ exc_str e)]],
     Ok tt).
Proof.
  intros Hraise.
  destruct (init_raise_inv env e Hraise) as (p & _ & _ & He).
  unfold main, main_try, run.
  rewrite (surjective_pairing (__init__ env)), init_trace, Hraise, He.
  reflexivity.
Qed.

Lemma main_missing_credential_witness :
  main env_no_claude (mock (Ok response_500)) =
    ([Effect (GetEnv "OPENAI_API_KEY"); Effect (GetEnv "ANTHROPIC_API_KEY");
      Effect (GetEnv "GOOGLE_API_KEY");
      Print [Lit "Configuration error: Missing API key for claude"]],
     Ok tt).
Proof.
  apply (main_missing_credential env_no_claude (mock (Ok response_500))
           (mkExc ValueError "Missing API key for claude")).
  vm_compute; reflexivity.
Defined.





(** X14: a reply with status 200 whose body does not decode as JSON is
    reported by [main] as a configuration error: the [JSONDecodeError] of
    [resp.json()] passes through [chat] and is caught by
    [except ValueError]. *)
Theorem main_decode_failure_label (env : gmap string string)
    (self : UniversalAIClient) (net : Transport) (resp : Response) (e : Exc) :
  (__init__ env).2 = Ok self ->
  answers net (call_openai self net) (Ok resp) ->
  resp_status resp = 200 ->
  resp_json resp = Raise e ->
  exc_class e = JSONDecodeError ->
  prints (main env net).1 =
    [[Lit "Requesting from OpenAI..."];
     [Lit ("Configuration error: " +:+ exc_str e)]].
Proof.
  intros Hinit Hnet Hstatus Hjson Hclass.
  destruct (main_unfold env self net Hinit) as (r1 & r2 & r3 & _ & _ & _ & ->).
  rewrite init_trace. cbn [fst].
  assert (Hp : "openai" ∈ providers) by (rewrite elem_of_providers; auto).
  unfold call_openai in *.
  rewrite (chat_json_raises env self net "openai" _ None 1000 0.7%float Hinit Hp
             resp Hnet e Hstatus Hjson).
  cbn zeta. unfold main_except. rewrite Hclass. reflexivity.
Qed.

Lemma main_decode_failure_label_witness :
  prints (main env_full (mock (Ok response_not_json))).1 =
    [[Lit "Requesting from OpenAI..."];
     [Lit "Configuration error: Expecting value: line 1 column 1 (char 0)"]].
Proof.
  apply (main_decode_failure_label env_full client_full
           (mock (Ok response_not_json)) response_not_json
           (mkExc JSONDecodeError "Expecting value: line 1 column 1 (char 0)")).
  - vm_compute; reflexivity.
  - apply answers_mock.
  - reflexivity.
  - reflexivity.
  - reflexivity.
Defined.

(** ** Headers and payloads *)

(** X15: [_build_headers] on any configuration: the content type stays
    [application/json] unless the configured header name is itself
    [Content-Type]; a provider other than openai and claude gets no other
    header; openai gets the configured header with prefix and key; claude
    gets [anthropic-version] with the configured version, [None] when there
    is none, and the configured header with the raw key. *)
Theorem build_headers_any_config (provider : string) (cfg : ProviderConfig) :
  (ProviderConfig.header cfg ≠ "Content-Type" ->
   _build_headers provider cfg !! "Content-Type" = Some (Some "application/json"))
  /\ (provider ≠ "openai" -> provider ≠ "claude" ->
      _build_headers provider cfg = {[ "Content-Type" := Some "application/json" ]})
  /\ (provider = "openai" ->
      _build_headers provider cfg !! ProviderConfig.header cfg
      = Some (Some (ProviderConfig.prefix cfg +:+ ProviderConfig.key cfg)))
  /\ (provider = "claude" ->
      _build_headers provider cfg !! "anthropic-version"
      = Some (ProviderConfig.version_header cfg)
      /\ (ProviderConfig.header cfg ≠ "anthropic-version" ->
          _build_headers provider cfg !! ProviderConfig.header cfg
          = Some (Some (ProviderConfig.key cfg)))).
Proof.
  unfold _build_headers. split; [| split; [| split]].
  - intros Hheader. repeat case_decide.
    + rewrite lookup_insert_ne by assumption. reflexivity.
    + rewrite !lookup_insert_ne by (assumption || discriminate). reflexivity.
    + reflexivity.
  - intros H1 H2. rewrite !decide_False by assumption. reflexivity.
  - intros ->. rewrite decide_True by reflexivity. apply lookup_insert_eq.
  - intros ->. rewrite decide_False by discriminate.
    rewrite decide_True by reflexivity. split.
    + apply lookup_insert_eq.
    + intros Hheader. rewrite lookup_insert_ne by congruence.
      apply lookup_insert_eq.
Qed.

Lemma build_headers_any_config_witness :
  _build_headers "mistral" (ProviderConfig.make "https://x" "secret" "X-Key" "" None)
  = {[ "Content-Type" := Some "application/json" ]}.
Proof.
  refine (proj1 (proj2 (build_headers_any_config "mistral" _)) _ _);
    discriminate.
Defined.

(** X16: the payload keeps what it is given: two calls of [_build_payload]
    for the same supported provider that build the same payload were given
    the same prompt, token limit and temperature, and for openai and claude
    the same effective model. *)
Theorem build_payload_injective (provider prompt1 prompt2 : string)
    (model1 model2 : option string) (max_tokens1 max_tokens2 : Z)
    (temperature1 temperature2 : float) :
  provider ∈ providers ->
  _build_payload provider prompt1 model1 max_tokens1 temperature1
  = _build_payload provider prompt2 model2 max_tokens2 temperature2 ->
  prompt1 = prompt2
  /\ max_tokens1 = max_tokens2
  /\ temperature1 = temperature2
  /\ (provider ≠ "gemini" ->
      py_or model1 (default_model provider) = py_or model2 (default_model provider)).
Proof.
  intros Hp Heq.
  assert (Hread : forall path,
            rbind (_build_payload provider prompt1 model1 max_tokens1 temperature1)
              (walk path)
            = rbind (_build_payload provider prompt2 model2 max_tokens2 temperature2)
                (walk path))
    by (intros path; rewrite Heq; reflexivity).
  clear Heq. apply elem_of_providers in Hp.
  destruct Hp as [-> | [-> | ->]].
  - pose proof (Hread [SStr "messages"; SInt 0; SStr "content"]) as Hm.
    pose proof (Hread [SStr "max_tokens"]) as Ht.
    pose proof (Hread [SStr "temperature"]) as Hf.
    pose proof (Hread [SStr "model"]) as Hmodel.
    vm_compute in Hm, Ht, Hf. injection Hm as ->. injection Ht as ->.
    injection Hf as ->. repeat split. intros _.
    unfold _build_payload in Hmodel. revert Hmodel. provider_cases.
    cbn [rbind walk getitem py_dict]. cbn [list_to_map foldr uncurry fst snd].
    rewrite !lookup_insert_eq. cbn. intros [= Hmodel]. exact Hmodel.
  - pose proof (Hread [SStr "messages"; SInt 0; SStr "content"]) as Hm.
    pose proof (Hread [SStr "max_tokens"]) as Ht.
    pose proof (Hread [SStr "temperature"]) as Hf.
    pose proof (Hread [SStr "model"]) as Hmodel.
    vm_compute in Hm, Ht, Hf. injection Hm as ->. injection Ht as ->.
    injection Hf as ->. repeat split. intros _.
    unfold _build_payload in Hmodel. revert Hmodel. provider_cases.
    cbn [rbind walk getitem py_dict]. cbn [list_to_map foldr uncurry fst snd].
    rewrite !lookup_insert_eq. cbn. intros [= Hmodel]. exact Hmodel.
  - pose proof (Hread [SStr "contents"; SInt 0; SStr "parts"; SInt 0; SStr "text"])
      as Hm.
    pose proof (Hread [SStr "generationConfig"; SStr "maxOutputTokens"]) as Ht.
    pose proof (Hread [SStr "generationConfig"; SStr "temperature"]) as Hf.
    vm_compute in Hm, Ht, Hf. injection Hm as ->. injection Ht as ->.
    injection Hf as ->. repeat split. intros H. contradiction.
Qed.

Lemma build_payload_injective_witness :
  "hi" = "hi" /\ 1000 = 1000 /\ 0.7%float = 0.7%float
  /\ ("openai" ≠ "gemini" ->
      py_or None (default_model "openai") = py_or (Some "") (default_model "openai")).
Proof.
  apply (build_payload_injective "openai" "hi" "hi" None (Some "") 1000 1000
           0.7%float 0.7%float).
  - rewrite elem_of_providers; auto.
  - reflexivity.
Defined.



(** Runs of [main] that end on an exception of a class outside the named
    ones: a [UnicodeDecodeError] while the body of an error reply is read,
    a [RecursionError] and a cancellation of the post. *)
Example main_unicode_decode_error :
  main env_full
    (mock (Ok (mkResponse 500
                 (Raise (mkExc UnicodeDecodeError "'utf-8' codec can't decode byte"))
                 (Ok body_empty))))
  = ([Effect (GetEnv "OPENAI_API_KEY"); Effect (GetEnv "ANTHROPIC_API_KEY");
      Effect (GetEnv "GOOGLE_API_KEY");
      Print [Lit "Requesting from OpenAI..."];
      Effect SessionOpen;
      Effect (Post (mkRequest "https://api.openai.com/v1/chat/completions"
                      (<[ "Authorization" := Some "Bearer sk-o" ]>
                         {[ "Content-Type" := Some "application/json" ]})
                      (spec_payload "openai" "Explain AI security in one sentence"
                         None 1000 0.7%float) 30));
      Effect SessionClose;
      Print [Lit "Configuration error: 'utf-8' codec can't decode byte"]],
     Ok tt).
Proof. vm_compute; reflexivity. Qed.

Example main_recursion_error :
  prints (main env_full
            (mock (Raise (mkExc RecursionError "maximum recursion depth exceeded")))).1
  = [[Lit "Requesting from OpenAI..."];
     [Lit "API error: maximum recursion depth exceeded"]].
Proof. vm_compute; reflexivity. Qed.

Example main_cancelled :
  prints (main env_full (mock (Raise (mkExc CancelledError "")))).1
  = [[Lit "Requesting from OpenAI..."]]
  /\ (main env_full (mock (Raise (mkExc CancelledError "")))).2
     = Raise (mkExc CancelledError "").
Proof. split; vm_compute; reflexivity. Qed.
